(** * vscode-react-native: folder coordinator, session registry, process executor

    A shallow embedding of [src/extension/rn-extension.ts] (the extension's
    entry point: workspace-folder bookkeeping, the synthetic folder-index
    counter and the minimum-version gate) together with the collaborators it
    calls.  JavaScript's mutable module state is threaded explicitly through
    a state-and-exception monad; an [await] is a sequencing point of that
    monad, so one handler runs from start to end without interleaving. *)

From Stdlib Require Import ZArith Lia Ascii DecimalString DecimalPos DecimalN.
From stdpp Require Import base option list sorting strings gmap.

Local Open Scope string_scope.

(** ** External library: semver *)

(** [semver.valid] answers the normalised version or [null]; [semver.gte]
    compares two versions.  The extension only consumes these two entry
    points, so they form the interface the development is parametric in. *)
Class Semver := {
  semver_valid : string → option string;
  semver_gte : string → string → bool
}.

(** JavaScript's [!!x] for a value that is a string or [null]. *)
Definition js_truthy (v : option string) : bool :=
  match v with
  | None => false
  | Some s => negb (String.eqb s "")
  end.

(** ** Data model *)

(** [vscode.WorkspaceFolder]: [uri] is kept as its [fsPath]. *)
Record WorkspaceFolder := {
  folder_uri : string;
  folder_name : string;
  folder_index : Z
}.

(** [RNPackageVersions] of [ProjectVersionHelper]. *)
Record RNPackageVersions := {
  reactNativeVersion : string;
  reactNativeWindowsVersion : string;
  reactNativeMacOSVersion : string
}.

(** The members of [InternalErrorCode] this file refers to. *)
Inductive InternalErrorCode :=
  | CouldNotFindProjectVersion
  | DebuggerStubLauncherFailed
  | CommandFailed.

(** What a JavaScript [throw] (or a rejected promise) carries. *)
Inductive JsError :=
  | TypeError (msg : string)
  | Failure (msg : string)
  | ProjectNotFound (folder : string) (keys : list string)
  | DuplicateProject (root : string).

(** How a [dispose()] member behaves when it is called. *)
Inductive DisposeBehaviour :=
  | DisposeReturns
  | DisposeThrows (e : JsError).

(** An object held in a property: [res_dispose = None] is an object (or a
    primitive) without a [dispose] member. *)
Record Resource := {
  res_id : string;
  res_dispose : option DisposeBehaviour
}.

(** The value of an own property: [null]/[undefined], or an object. *)
Inductive JsProp :=
  | PNullish
  | PObject (r : Resource).

(** Modelled from the spec: the class [AppLauncher] (the Project Launcher) is
    not part of the sources.  It holds a reference to its workspace folder,
    the [ReactDirManager] it is constructed with, and the further resources
    it owns (packager handle, debug-session bindings), here the own
    properties [owned]. *)
Record AppLauncher := {
  reactDirManager : Resource;
  workspaceFolder : WorkspaceFolder;
  owned : list (string * JsProp)
}.

(** [Object.keys(appLauncher)] paired with [appLauncher[key]], in property
    order. *)
Definition Object_entries (l : AppLauncher) : list (string * JsProp) :=
  ("reactDirManager", PObject (reactDirManager l))
  :: ("workspaceFolder",
      PObject {| res_id := folder_uri (workspaceFolder l); res_dispose := None |})
  :: owned l.

(** An element of [EXTENSION_CONTEXT.subscriptions]. *)
Record Subscription := {
  sub_id : string;
  isDisposed : bool
}.

(** Observable effects, in the order they happen.  [AddFolder] and
    [DelFolder] mark the calls of [ProjectsStorage.addFolder] and
    [ProjectsStorage.delFolder], [SetupCompleted] the moment the awaited
    [setup()] resolves. *)
Inductive Event :=
  | LogDebug (msg : string)
  | LogWarning (msg : string)
  | LogError (code : InternalErrorCode) (reason : JsError)
  | LogTeardownFailure (id : string) (reason : JsError)
  | TelemetryErrorEvent (name : string) (code : InternalErrorCode) (arg : string)
  | TelemetrySimpleEvent (name : string) (rnVersion : string)
  | ShowWarningMessage (msg : string)
  | SetContext (name : string)
  | SetupCompleted (rootPath : string)
  | Disposed (id : string)
  | AddFolder (projectRoot : string)
  | DelFolder (folder : string).


(** The module-level mutable state of the extension host process.  The
    counter is a JavaScript number that starts at 9000 and moves by one: it
    stays among the integers that numbers represent exactly, and is an
    integer here. *)
Record State := {
  projectsCache : gmap string AppLauncher;
  COUNT_WORKSPACE_FOLDERS : Z;
  subscriptions : list Subscription;
  trace : list Event
}.

(** The state at module load: [let COUNT_WORKSPACE_FOLDERS: number = 9000]. *)
Definition initial_state : State :=
  {| projectsCache := ∅;
     COUNT_WORKSPACE_FOLDERS := 9000;
     subscriptions := [];
     trace := [] |}.

(** ** The state-and-exception monad *)

Inductive Outcome (A : Type) :=
  | Returned (a : A)
  | Thrown (e : JsError).
Arguments Returned {A} a.
Arguments Thrown {A} e.

Definition M (A : Type) : Type := State → Outcome A * State.

Definition ret {A} (a : A) : M A := λ st, (Returned a, st).
Definition throw {A} (e : JsError) : M A := λ st, (Thrown e, st).
Definition bind {A B} (m : M A) (k : A → M B) : M B :=
  λ st, match m st with
        | (Returned a, st') => k a st'
        | (Thrown e, st') => (Thrown e, st')
        end.
Definition try_catch {A} (m : M A) (handler : JsError → M A) : M A :=
  λ st, match m st with
        | (Returned a, st') => (Returned a, st')
        | (Thrown e, st') => handler e st'
        end.

Declare Scope js_scope.
Delimit Scope js_scope with js.
Notation "x <- m ;; k" := (bind m (λ x, k))
  (at level 100, m at next level, right associativity) : js_scope.
Notation "m ;; k" := (bind m (λ _, k))
  (at level 100, right associativity) : js_scope.
Local Open Scope js_scope.

(** [array.forEach(f)] over an array that [f] does not change. *)
Fixpoint forEach {A} (l : list A) (f : A → M unit) : M unit :=
  match l with
  | [] => ret tt
  | x :: l' => f x ;; forEach l' f
  end.

Definition emit (e : Event) : M unit :=
  λ st, (Returned tt,
         {| projectsCache := projectsCache st;
            COUNT_WORKSPACE_FOLDERS := COUNT_WORKSPACE_FOLDERS st;
            subscriptions := subscriptions st;
            trace := trace st ++ [e] |}).

Definition set_projectsCache (m : gmap string AppLauncher) : M unit :=
  λ st, (Returned tt,
         {| projectsCache := m;
            COUNT_WORKSPACE_FOLDERS := COUNT_WORKSPACE_FOLDERS st;
            subscriptions := subscriptions st;
            trace := trace st |}).

Definition set_subscriptions (l : list Subscription) : M unit :=
  λ st, (Returned tt,
         {| projectsCache := projectsCache st;
            COUNT_WORKSPACE_FOLDERS := COUNT_WORKSPACE_FOLDERS st;
            subscriptions := l;
            trace := trace st |}).

Definition set_COUNT_WORKSPACE_FOLDERS (n : Z) : M unit :=
  λ st, (Returned tt,
         {| projectsCache := projectsCache st;
            COUNT_WORKSPACE_FOLDERS := n;
            subscriptions := subscriptions st;
            trace := trace st |}).

Definition get_state : M State := λ st, (Returned st, st).

(** ** Collaborators of the extension *)

(** Calling a [dispose()] member.  The object pushed to
    [EXTENSION_CONTEXT.subscriptions] by [setupAndDispose] is the very object
    the launcher holds, so a disposal that returns is visible through the
    [isDisposed] flag of the subscription with the same identity. *)
Definition mark_disposed (id : string) (l : list Subscription) : list Subscription :=
  (λ s, if String.eqb (sub_id s) id
        then {| sub_id := sub_id s; isDisposed := true |} else s) <$> l.

Definition call_dispose (r : Resource) (b : DisposeBehaviour) : M unit :=
  match b with
  | DisposeReturns =>
      st <- get_state ;;
      set_subscriptions (mark_disposed (res_id r) (subscriptions st)) ;;
      emit (Disposed (res_id r))
  | DisposeThrows e => throw e
  end.

Module ProjectsStorage.

(** The entry [kv] belongs to folder [f]: its launcher's stored folder
    reference has [f]'s path. *)
Definition stores_folder (f : WorkspaceFolder) (kv : string * AppLauncher) : Prop :=
  folder_uri (workspaceFolder kv.2) = folder_uri f.

#[global] Instance stores_folder_dec f kv : Decision (stores_folder f kv).
Proof. unfold stores_folder. apply _. Defined.

Definition find_entry (f : WorkspaceFolder) (m : gmap string AppLauncher)
  : option (string * AppLauncher) :=
  snd <$> list_find (stores_folder f) (map_to_list m).

(** Modelled from the spec: [ProjectsStorage.addFolder] ([addProject]) is
    not part of the sources.  It fails with a duplicate-project condition
    when the root is already present and otherwise stores the launcher
    under the root. *)
Definition addFolder (projectRootPath : string) (appLauncher : AppLauncher) : M unit :=
  emit (AddFolder projectRootPath) ;;
  st <- get_state ;;
  match projectsCache st !! projectRootPath with
  | Some _ => throw (DuplicateProject projectRootPath)
  | None => set_projectsCache (<[projectRootPath := appLauncher]> (projectsCache st))
  end.

(** Modelled from the spec: [ProjectsStorage.getFolder] ([getProject]) is
    not part of the sources.  It resolves the folder through the stored
    folder reference of the launchers; without a match it fails with a
    project-not-found condition that carries the registry's keys. *)
Definition getFolder (folder : WorkspaceFolder) : M AppLauncher :=
  st <- get_state ;;
  match find_entry folder (projectsCache st) with
  | Some kv => ret kv.2
  | None =>
      throw (ProjectNotFound (folder_uri folder) (fst <$> map_to_list (projectsCache st)))
  end.

(** Modelled from the spec: the launcher's own disposal routine is not part
    of the sources.  Every sub-resource is released even if another one's
    release throws; a failure is caught and logged. *)
Definition dispose_launcher (l : AppLauncher) : M unit :=
  forEach (Object_entries l) (λ kv,
    match kv.2 with
    | PObject r =>
        match res_dispose r with
        | Some b => try_catch (call_dispose r b)
                              (λ e, emit (LogTeardownFailure (res_id r) e))
        | None => ret tt
        end
    | PNullish => ret tt
    end).

(** Modelled from the spec: [ProjectsStorage.delFolder] ([removeProject])
    is not part of the sources.  It invokes the launcher's disposal routine
    and then deletes the entry; nothing to delete is not an error. *)
Definition delFolder (folder : WorkspaceFolder) : M unit :=
  emit (DelFolder (folder_uri folder)) ;;
  st <- get_state ;;
  forEach (map_to_list (filter (stores_folder folder) (projectsCache st)))
          (λ kv, dispose_launcher kv.2) ;;
  set_projectsCache (filter (λ kv, ¬ stores_folder folder kv) (projectsCache st)).

End ProjectsStorage.

(** What the extension reads from its surroundings: settings, the file
    system, the project's package files and the behaviour of the
    [ReactDirManager] of a folder. *)
Record Host := {
  (** [SettingsHelper.getReactNativeProjectRoot] *)
  getReactNativeProjectRoot : string → string;
  (** [ProjectVersionHelper.tryToGetRNSemverValidVersionsFromProjectPackage] *)
  tryToGetRNSemverValidVersionsFromProjectPackage : string → RNPackageVersions;
  (** [ProjectVersionHelper.isVersionError] *)
  isVersionError : string → bool;
  (** [fs.existsSync] *)
  existsSync : string → bool;
  (** [path.basename] *)
  basename : string → string;
  (** [ReactDirManager.setup] of the manager of a root path: [None] when the
      promise resolves, the reason when it rejects *)
  setup : string → option JsError;
  (** [ReactDirManager.dispose] of the manager of a root path *)
  dispose : string → DisposeBehaviour
}.

Definition outputChannelLogger_debug (msg : string) : M unit := emit (LogDebug msg).
Definition outputChannelLogger_warning (msg : string) : M unit := emit (LogWarning msg).

(** Modelled from the spec: [EntryPointHandler.runFunction] is not part of
    the sources.  With [errorsAreFatal] left at its default the wrapper is
    advisory: a failure of the wrapped code is logged under the given
    internal error, reported to telemetry, and the caller continues. *)
Definition runFunction (taskName : string) (error : InternalErrorCode)
    (codeToRun : M unit) : M unit :=
  try_catch codeToRun (λ reason,
    emit (LogError error reason) ;;
    emit (TelemetryErrorEvent taskName error "")).

(** Modelled from the spec: the constructor of [AppLauncher] is not part of
    the sources.  [new AppLauncher(reactDirManager, folder)] holds the
    manager and the folder it is given; no further own property is set
    here. *)
Definition new_AppLauncher (rdm : Resource) (folder : WorkspaceFolder) : AppLauncher :=
  {| reactDirManager := rdm; workspaceFolder := folder; owned := [] |}.

(** The loop of [onFolderRemoved] that drops disposed subscriptions:
    [forEach] visits the indices below the initial length that are still in
    the array, and [splice(index, 1)] shifts the tail left under it. *)
Fixpoint splice_disposed (fuel index : nat) (l : list Subscription) : list Subscription :=
  match fuel with
  | O => l
  | S fuel' =>
      match l !! index with
      | Some element =>
          splice_disposed fuel' (S index)
            (if isDisposed element then delete index l else l)
      | None => splice_disposed fuel' (S index) l
      end
  end.

(** ** The extension: [src/extension/rn-extension.ts] *)

Section Extension.

Context `{Semver} (host : Host).

(** [createAdditionalWorkspaceFolder]: the index is the counter after the
    pre-increment; [null] when the path does not exist. *)
Definition createAdditionalWorkspaceFolder (folderPath : string)
  : M (option WorkspaceFolder) :=
  if existsSync host folderPath then
    st <- get_state ;;
    set_COUNT_WORKSPACE_FOLDERS (COUNT_WORKSPACE_FOLDERS st + 1) ;;
    ret (Some {| folder_uri := folderPath;
                 folder_name := basename host folderPath;
                 folder_index := COUNT_WORKSPACE_FOLDERS st + 1 |})
  else ret None.

Definition getCountOfWorkspaceFolders : M Z :=
  st <- get_state ;; ret (COUNT_WORKSPACE_FOLDERS st).

Definition shortMessage : string :=
  "React Native Tools need React Native version 0.19.0 or later to be installed in <PROJECT_ROOT>/node_modules/".

(** [isSupportedVersion]: the gate rejects what [semver] accepts as a
    version and orders below 0.19.0; [&&] evaluates [semver.gte] only for
    such a version. *)
Definition isSupportedVersion (version : string) : M bool :=
  if js_truthy (semver_valid version) && negb (semver_gte version "0.19.0") then
    emit (TelemetrySimpleEvent "unsupportedRNVersion" version) ;;
    let longMessage := shortMessage ++ ": " ++ version in
    emit (ShowWarningMessage shortMessage) ;;
    outputChannelLogger_warning longMessage ;;
    ret false
  else ret true.

(** [activateCommands] *)
Definition activateCommands (versions : RNPackageVersions) : M unit :=
  (if negb (isVersionError host (reactNativeWindowsVersion versions))
   then emit (SetContext "IS_RN_WINDOWS_PROJECT") else ret tt) ;;
  (if negb (isVersionError host (reactNativeMacOSVersion versions))
   then emit (SetContext "IS_RN_MACOS_PROJECT") else ret tt).

(** [new ReactDirManager(rootPath)] *)
Definition new_ReactDirManager (rootPath : string) : Resource :=
  {| res_id := rootPath; res_dispose := Some (dispose host rootPath) |}.

(** [setupAndDispose]: the subscription is pushed only after the awaited
    [setup()] has resolved. *)
Definition setupAndDispose (setuptableDisposable : Resource) : M Resource :=
  match setup host (res_id setuptableDisposable) with
  | Some reason => throw reason
  | None =>
      emit (SetupCompleted (res_id setuptableDisposable)) ;;
      st <- get_state ;;
      set_subscriptions
        (subscriptions st
           ++ [{| sub_id := res_id setuptableDisposable; isDisposed := false |}]) ;;
      ret setuptableDisposable
  end.

(** [onFolderAdded] *)
Definition onFolderAdded (folder : WorkspaceFolder) : M unit :=
  let rootPath := folder_uri folder in
  let projectRootPath := getReactNativeProjectRoot host rootPath in
  outputChannelLogger_debug ("Add project: " ++ projectRootPath) ;;
  let versions := tryToGetRNSemverValidVersionsFromProjectPackage host projectRootPath in
  outputChannelLogger_debug ("React Native version: " ++ reactNativeVersion versions) ;;
  if isVersionError host (reactNativeVersion versions) then
    outputChannelLogger_debug
      ("react-native package version is not found in " ++ projectRootPath
         ++ ". Reason: " ++ reactNativeVersion versions) ;;
    emit (TelemetryErrorEvent "AddProjectReactNativeVersionIsEmpty"
            CouldNotFindProjectVersion (reactNativeVersion versions))
  else
    supported <- isSupportedVersion (reactNativeVersion versions) ;;
    if (supported : bool) then
      activateCommands versions ;;
      runFunction "debugger.setupLauncherStub" DebuggerStubLauncherFailed
        (let reactDirManager := new_ReactDirManager rootPath in
         _ <- setupAndDispose reactDirManager ;;
         ProjectsStorage.addFolder projectRootPath
           (new_AppLauncher reactDirManager folder) ;;
         st <- get_state ;;
         set_COUNT_WORKSPACE_FOLDERS (COUNT_WORKSPACE_FOLDERS st + 1))
    else
      outputChannelLogger_debug
        ("react-native@" ++ reactNativeVersion versions ++ " isn't supported").

(** The body of the [forEach] over [Object.keys(appLauncher)]: reading
    [.dispose] of [null]/[undefined] is a [TypeError]; a [dispose] member
    is called, and nothing catches what it throws. *)
Definition dispose_property (kv : string * JsProp) : M unit :=
  match kv.2 with
  | PNullish => throw (TypeError ("Cannot read property 'dispose' of " ++ kv.1))
  | PObject r =>
      match res_dispose r with
      | Some b => call_dispose r b
      | None => ret tt
      end
  end.

(** [onFolderRemoved] *)
Definition onFolderRemoved (folder : WorkspaceFolder) : M unit :=
  appLauncher <- ProjectsStorage.getFolder folder ;;
  forEach (Object_entries appLauncher) dispose_property ;;
  outputChannelLogger_debug ("Delete project: " ++ folder_uri folder) ;;
  ProjectsStorage.delFolder folder ;;
  try_catch
    (st <- get_state ;;
     set_subscriptions
       (splice_disposed (length (subscriptions st)) 0 (subscriptions st)))
    (λ _, ret tt).

(** [onChangeWorkspaceFolders]: the removed folders first, then the added
    ones.  An exception of [onFolderRemoved] leaves the loop; the promise of
    [onFolderAdded] is not awaited, so its rejection does not reach the
    caller. *)
Definition onChangeWorkspaceFolders (removed added : list WorkspaceFolder) : M unit :=
  forEach removed onFolderRemoved ;;
  forEach added (λ folder, try_catch (onFolderAdded folder) (λ _, ret tt)).

End Extension.

(** ** A reference implementation of the semver interface

    The strict grammar of semver 2.0.0 as [semver.valid] applies it: the
    input is trimmed, an optional [v] is dropped, the three numeric
    components carry no leading zero, then an optional prerelease and an
    optional build tag.  The length and magnitude limits of the library are
    left out.  It instantiates [Semver] wherever a theorem is run on
    concrete version strings. *)
Module SemverRef.

Definition code (c : ascii) : N := N_of_ascii c.

Definition is_digit (c : ascii) : bool :=
  (48 <=? code c)%N && (code c <=? 57)%N.

Definition is_letter_or_hyphen (c : ascii) : bool :=
  ((65 <=? code c)%N && (code c <=? 90)%N)
  || ((97 <=? code c)%N && (code c <=? 122)%N)
  || (code c =? 45)%N.

Definition is_space (c : ascii) : bool :=
  (code c =? 32)%N || ((9 <=? code c)%N && (code c <=? 13)%N).

Fixpoint drop_spaces (l : list ascii) : list ascii :=
  match l with
  | c :: l' => if is_space c then drop_spaces l' else l
  | [] => []
  end.

Definition trim (l : list ascii) : list ascii :=
  reverse (drop_spaces (reverse (drop_spaces l))).

(** Cut at the first occurrence of [sep]. *)
Fixpoint cut (sep : ascii) (l : list ascii) : list ascii * option (list ascii) :=
  match l with
  | [] => ([], None)
  | c :: l' =>
      if Ascii.eqb c sep then ([], Some l')
      else let '(a, b) := cut sep l' in (c :: a, b)
  end.

(** Split at every occurrence of [sep]. *)
Fixpoint split (sep : ascii) (l : list ascii) : list (list ascii) :=
  match l with
  | [] => [[]]
  | c :: l' =>
      if Ascii.eqb c sep then [] :: split sep l'
      else match split sep l' with
           | piece :: rest => (c :: piece) :: rest
           | [] => [[c]]
           end
  end.

Definition digits_value (l : list ascii) : N :=
  foldl (λ acc c, (10 * acc + (code c - 48))%N) 0%N l.

(** [0|[1-9]\d*] *)
Definition numeric_identifier (l : list ascii) : option N :=
  match l with
  | [] => None
  | [c] => if is_digit c then Some (digits_value l) else None
  | c :: _ =>
      if forallb is_digit l && negb (code c =? 48)%N
      then Some (digits_value l) else None
  end.

Inductive PrereleaseId :=
  | NumericId (n : N)
  | AlphanumId (s : list ascii).

(** [0|[1-9]\d*|\d*[a-zA-Z-][a-zA-Z0-9-]*] *)
Definition prerelease_identifier (l : list ascii) : option PrereleaseId :=
  if forallb is_digit l then NumericId <$> numeric_identifier l
  else if forallb (λ c, is_digit c || is_letter_or_hyphen c) l
       then Some (AlphanumId l) else None.

(** [[0-9A-Za-z-]+] *)
Definition build_identifier (l : list ascii) : bool :=
  match l with
  | [] => false
  | _ => forallb (λ c, is_digit c || is_letter_or_hyphen c) l
  end.

Record Version := {
  major : N;
  minor : N;
  patch : N;
  prerelease : list PrereleaseId;
  text : list ascii
}.

Definition parse (s : string) : option Version :=
  let l := trim (String.list_ascii_of_string s) in
  let l := match l with
           | c :: l' => if (code c =? 118)%N then l' else l
           | [] => l
           end in
  let '(main_pre, build) := cut "+" l in
  let '(main, pre) := cut "-" main_pre in
  if match build with
     | Some b => forallb build_identifier (split "." b)
     | None => true
     end
  then
    match numeric_identifier <$> split "." main with
    | [Some ma; Some mi; Some pa] =>
        match pre with
        | None =>
            Some {| major := ma; minor := mi; patch := pa;
                    prerelease := []; text := main_pre |}
        | Some p =>
            ids ← mapM prerelease_identifier (split "." p);
            Some {| major := ma; minor := mi; patch := pa;
                    prerelease := ids; text := main_pre |}
        end
    | _ => None
    end
  else None.

Fixpoint compare_ascii_lists (a b : list ascii) : comparison :=
  match a, b with
  | [], [] => Eq
  | [], _ :: _ => Lt
  | _ :: _, [] => Gt
  | x :: a', y :: b' =>
      match (code x ?= code y)%N with
      | Eq => compare_ascii_lists a' b'
      | c => c
      end
  end.

Definition compare_identifiers (a b : PrereleaseId) : comparison :=
  match a, b with
  | NumericId x, NumericId y => (x ?= y)%N
  | NumericId _, AlphanumId _ => Lt
  | AlphanumId _, NumericId _ => Gt
  | AlphanumId x, AlphanumId y => compare_ascii_lists x y
  end.

Fixpoint compare_prerelease_ids (a b : list PrereleaseId) : comparison :=
  match a, b with
  | [], [] => Eq
  | [], _ :: _ => Lt
  | _ :: _, [] => Gt
  | x :: a', y :: b' =>
      match compare_identifiers x y with
      | Eq => compare_prerelease_ids a' b'
      | c => c
      end
  end.

(** A version without prerelease is above the same version with one. *)
Definition compare_prerelease (a b : list PrereleaseId) : comparison :=
  match a, b with
  | [], [] => Eq
  | [], _ :: _ => Gt
  | _ :: _, [] => Lt
  | _, _ => compare_prerelease_ids a b
  end.

Definition compare (a b : Version) : comparison :=
  match (major a ?= major b)%N with
  | Eq => match (minor a ?= minor b)%N with
          | Eq => match (patch a ?= patch b)%N with
                  | Eq => compare_prerelease (prerelease a) (prerelease b)
                  | c => c
                  end
          | c => c
          end
  | c => c
  end.

Definition valid (s : string) : option string :=
  (λ v, String.string_of_list_ascii (text v)) <$> parse s.

(** [semver.gte] raises on an invalid operand; the gate only calls it
    behind [semver.valid], and here an invalid operand answers [false]. *)
Definition gte (a b : string) : bool :=
  match parse a, parse b with
  | Some va, Some vb =>
      match compare va vb with
      | Lt => false
      | _ => true
      end
  | _, _ => false
  end.

Definition semver : Semver :=
  {| semver_valid := valid; semver_gte := gte |}.

End SemverRef.

(** ** The process executor: [CommandExecutor]

    Only the test suite of [src/common/commandExecutor.ts] is part of the
    sources; the operations below follow the specification of the Process
    Executor. *)
Module CommandExecutor.

Inductive ErrorLevel := Info | Warning | Error.

Record ErrorRecord := {
  errorCode : Z;
  errorLevel : ErrorLevel;
  message : string
}.

(** [InternalErrorCode.CommandFailed], the code the tests expect. *)
Definition CommandFailed_code : Z := 101.

(** What the operating system makes of a command. *)
Inductive ProcessResult :=
  | CannotStart (reason : string)
  | Exited (exitCode : Z) (stdout stderr : string).

(** The executor's surroundings: the operating system, the file system
    and the configured global command name (empty when unset). *)
Record Env := {
  run : string → ProcessResult;
  fileExists : string → bool;
  ReactNativeCommand : string
}.

(** Modelled from the spec: the failure classification of the Process
    Executor.  A process that cannot be started and a process that exits
    non-zero both yield the command-failed code at level [Error]; the
    latter carries the captured output in its message. *)
Definition classify (commandLine : string) (r : ProcessResult) : ErrorRecord + string :=
  match r with
  | CannotStart reason =>
      inl {| errorCode := CommandFailed_code; errorLevel := Error;
             message := "Error while executing command '" ++ commandLine
                          ++ "': " ++ reason |}
  | Exited code out err =>
      if (code =? 0)%Z then inr out
      else inl {| errorCode := CommandFailed_code; errorLevel := Error;
                  message := "Error while executing command '" ++ commandLine
                               ++ "': " ++ err ++ out |}
  end.

(** Modelled from the spec: [CommandExecutor.execute] runs a command line
    to completion and resolves with the captured text or rejects with the
    classified failure. *)
Definition execute (env : Env) (commandLine : string) : ErrorRecord + string :=
  classify commandLine (run env commandLine).

(** What [spawn] returns at once: the completion signal [outcome] settles
    when the process exits. *)
Record SpawnResult := {
  spawned : string;
  outcome : ErrorRecord + string
}.

(** The command line of a command and its arguments. *)
Definition join_args (args : list string) : string :=
  " " ++ String.concat " " args.

(** Modelled from the spec: [CommandExecutor.spawn] starts the process and
    returns immediately; a failure to start is reported through the
    completion signal. *)
Definition spawn (env : Env) (command : string) (args : list string) : SpawnResult :=
  let commandLine := command ++ join_args args in
  {| spawned := commandLine;
     outcome := classify commandLine (run env commandLine) |}.

(** [path.join(nodeModulesRoot, "node_modules", ".bin", "react-native")],
    the path the tests compare with. *)
Definition localCLIPath (nodeModulesRoot : string) : string :=
  nodeModulesRoot ++ "/node_modules/.bin/react-native".

(** Modelled from the spec: [CommandExecutor.selectReactNativeCLI] is not
    part of the sources, its two tests are.  The resolution first looks for
    the project-local binary and, when it is absent, turns to the configured
    global command name.  For a name that is unset as well the specification
    speaks of a default command name.  The two tests run in the sample
    project after the [suiteTeardown] of the suite before them has removed
    its [node_modules], that is without a local binary, and the one with an
    empty global name expects the project-local path: the last resort is
    the project-local path. *)
Definition selectReactNativeCLI (env : Env) (nodeModulesRoot : string) : string :=
  if fileExists env (localCLIPath nodeModulesRoot) then localCLIPath nodeModulesRoot
  else if negb (String.eqb (ReactNativeCommand env) "") then ReactNativeCommand env
  else localCLIPath nodeModulesRoot.

(** *** The version probe *)

Definition show (n : N) : string := NilEmpty.string_of_uint (N.to_uint n).

Definition render (a b c : N) : string :=
  show a ++ "." ++ show b ++ "." ++ show c.

Fixpoint span_digits (l : list ascii) : list ascii * list ascii :=
  match l with
  | c :: l' =>
      if SemverRef.is_digit c
      then let '(d, r) := span_digits l' in (c :: d, r)
      else ([], l)
  | [] => ([], [])
  end.

(** After a [.]: the digits of the next component, if there are any. *)
Definition next_component (l : list ascii) : option (list ascii * list ascii) :=
  match l with
  | c :: l' =>
      if (SemverRef.code c =? 46)%N then
        match span_digits l' with
        | ([], _) => None
        | (d, r) => Some (d, r)
        end
      else None
  | [] => None
  end.

(** The first run of digits with up to two further dotted components;
    a missing component is 0. *)
Fixpoint coerce_list (l : list ascii) : option (N * N * N) :=
  match l with
  | [] => None
  | c :: l' =>
      if SemverRef.is_digit c then
        let '(d1, r1) := span_digits l in
        let a := SemverRef.digits_value d1 in
        match next_component r1 with
        | None => Some (a, 0%N, 0%N)
        | Some (d2, r2) =>
            let b := SemverRef.digits_value d2 in
            match next_component r2 with
            | None => Some (a, b, 0%N)
            | Some (d3, _) => Some (a, b, SemverRef.digits_value d3)
            end
        end
      else coerce_list l'
  end.

(** Cleaning a declared version or range down to a plain version. *)
Definition coerce (s : string) : option string :=
  (λ v, render v.1.1 v.1.2 v.2) <$> coerce_list (String.list_ascii_of_string s).

(** The package files the probe reads. *)
Record PackageFiles := {
  (** the [version] field of the installed manifest of [react-native] *)
  manifest_version : option string;
  (** the version recorded in the lock file *)
  lock_version : option string;
  (** the range the project declares for the dependency *)
  declared_range : option string
}.

(** The first of the sources that holds a version number, cleaned. *)
Fixpoint first_version (sources : list (option string)) : option string :=
  match sources with
  | [] => None
  | source :: rest =>
      match source ≫= coerce with
      | Some cleaned => Some cleaned
      | None => first_version rest
      end
  end.

(** Modelled from the spec: [CommandExecutor.getReactNativeVersion] is not
    part of the sources, its two tests are.  The probe reads the version of
    the installed manifest and falls back to the lock file and then to the
    declared range; a field from which no version can be cleaned counts as
    missing.  The probe does not fail: where no source holds a version
    number it still answers a version, and which one the specification
    leaves open (a guessed version); it is the parameter [guess]. *)
Definition getReactNativeVersion (guess : N * N * N) (p : PackageFiles) : string :=
  default (render guess.1.1 guess.1.2 guess.2)
          (first_version [manifest_version p; lock_version p; declared_range p]).

(** Three numbers joined by dots. *)
Definition semver_shaped (s : string) : Prop :=
  ∃ a b c, s = render a b c.

End CommandExecutor.

(** ** Activation and deactivation: [activate], [deactivate] and the
    commands *)

Module Activation.

(** What the user and the editor get to see besides the log.
    [InformationMessageThenPreview] is a message whose promise carries a
    callback: once the message is answered or dismissed, the Markdown
    preview of the file opens. *)
Inductive Notice :=
  | InformationMessage (msg : string)
  | InformationMessageThenPreview (msg : string) (file : string)
  | UpdateTipsConfig
  | ShowTipNotification
  | TelemetrySend (name : string)
  | SendErrorEvent (name : string)
  | StopAllPackagers
  | StopElementInspector
  | LogCatCleanUp.

(** The extension as a whole: the module state of the folder bookkeeping,
    the persisted configuration ([ExtensionConfigManager.config], a store of
    keys and values), the module variable [debugConfigProvider] (set, or
    [null]) and what has been shown. *)
Record Extension := {
  module_state : State;
  config : gmap string string;
  debugConfigProvider : bool;
  notices : list Notice
}.

(** What [activate] and [deactivate] read from the editor and from the
    collaborators they call. *)
Record Editor := {
  (** [getExtensionName()] and [getExtensionVersion()]; [None] is
      [undefined] *)
  getExtensionName : option string;
  getExtensionVersion : option string;
  (** [vscode.extensions.getExtension("msjsdiag.vscode-react-native")] is
      defined *)
  stableExtensionInstalled : bool;
  (** [findFileInFolderHierarchy(__dirname, "CHANGELOG.md")] *)
  findChangelog : option string;
  (** [vscode.workspace.workspaceFolders] *)
  workspaceFolders : option (list WorkspaceFolder);
  (** whether the promise of [CommandPaletteHandler.stopAllPackagers] and of
      [CommandPaletteHandler.stopElementInspector] resolves *)
  stopAllPackagers : bool;
  stopElementInspector : bool
}.

Definition X (A : Type) : Type := Extension → Outcome A * Extension.

Definition xret {A} (a : A) : X A := λ ext, (Returned a, ext).
Definition xthrow {A} (e : JsError) : X A := λ ext, (Thrown e, ext).
Definition xbind {A B} (m : X A) (k : A → X B) : X B :=
  λ ext, match m ext with
         | (Returned a, ext') => k a ext'
         | (Thrown e, ext') => (Thrown e, ext')
         end.
Definition xcatch {A} (m : X A) (handler : JsError → X A) : X A :=
  λ ext, match m ext with
         | (Returned a, ext') => (Returned a, ext')
         | (Thrown e, ext') => handler e ext'
         end.

Declare Scope x_scope.
Delimit Scope x_scope with x.
Notation "x <- m ;; k" := (xbind m (λ x, k))
  (at level 100, m at next level, right associativity) : x_scope.
Notation "m ;; k" := (xbind m (λ _, k))
  (at level 100, right associativity) : x_scope.
Local Open Scope x_scope.

(** A computation on the module state, run inside the extension. *)
Definition lift {A} (m : M A) : X A :=
  λ ext, let '(o, st) := m (module_state ext) in
         (o, {| module_state := st;
                config := config ext;
                debugConfigProvider := debugConfigProvider ext;
                notices := notices ext |}).

Definition notice (n : Notice) : X unit :=
  λ ext, (Returned tt,
          {| module_state := module_state ext;
             config := config ext;
             debugConfigProvider := debugConfigProvider ext;
             notices := notices ext ++ [n] |}).

Definition set_config (c : gmap string string) : X unit :=
  λ ext, (Returned tt,
          {| module_state := module_state ext;
             config := c;
             debugConfigProvider := debugConfigProvider ext;
             notices := notices ext |}).

Definition set_debugConfigProvider (b : bool) : X unit :=
  λ ext, (Returned tt,
          {| module_state := module_state ext;
             config := config ext;
             debugConfigProvider := b;
             notices := notices ext |}).

Definition get_extension : X Extension := λ ext, (Returned ext, ext).

(** [EXTENSION_CONTEXT.subscriptions.push(...)] *)
Definition push_subscription (id : string) : X unit :=
  lift (st <- get_state ;;
        set_subscriptions (subscriptions st ++ [{| sub_id := id; isDisposed := false |}]))%js.

(** [haystack.includes(needle)] *)
Fixpoint includes (needle haystack : string) : bool :=
  String.prefix needle haystack
  || match haystack with
     | EmptyString => false
     | String _ rest => includes needle rest
     end.

(** [isUpdatedVersion]: the stored version is missing or differs; it is
    then overwritten. *)
Definition isUpdatedVersion (currentVersion : string) : X bool :=
  ext <- get_extension ;;
  if negb (bool_decide (is_Some (config ext !! "version")))
     || negb (bool_decide (config ext !! "version" = Some currentVersion))
  then set_config (<["version" := currentVersion]> (config ext)) ;; xret true
  else xret false.

Definition twoVersionsMessage : string :=
  "React Native Tools: Both Stable and Preview extensions are installed. Stable will be used. Disable or remove it to work with Preview version.".

(** [showTwoVersionFoundNotification] *)
Definition showTwoVersionFoundNotification (editor : Editor) : X bool :=
  if stableExtensionInstalled editor then
    notice (InformationMessage twoVersionsMessage) ;; xret true
  else xret false.

(** [showChangelogNotificationOnUpdate]: the message is shown and the
    function returns.  The preview of the changelog is opened by the
    callback attached to the promise of the message, which nobody awaits: it
    runs once the message is answered or dismissed, whatever the answer. *)
Definition showChangelogNotificationOnUpdate (editor : Editor)
    (currentVersion : string) : X unit :=
  match findChangelog editor with
  | Some changelogFile =>
      if negb (String.eqb changelogFile "") then
        notice (InformationMessageThenPreview
                  ("React Native Tools have been updated to " ++ currentVersion)
                  changelogFile)
      else xret tt
  | None => xret tt
  end.

(** The calls of [registerVSCodeCommand] in [registerReactNativeCommands],
    in source order: the command name and the internal error it is
    registered with. *)
Inductive CommandError :=
  | FailedToStartAndroidEmulator
  | FailedToRunOnAndroid
  | FailedToRunOnIos
  | FailedToRunExponent
  | FailedToRunOnWindows
  | FailedToRunOnMacOS
  | FailedToStartPackager
  | FailedToStopPackager
  | FailedToRestartPackager
  | FailedToPublishToExpHost
  | AndroidCouldNotStartLogCatMonitor
  | AndroidCouldNotStopLogCatMonitor
  | CouldNotStartNetworkInspector
  | CouldNotStopNetworkInspector
  | CommandFailedError.

Definition registered_commands : list (string * CommandError) :=
  [("launchAndroidSimulator", FailedToStartAndroidEmulator);
   ("runAndroidSimulator", FailedToRunOnAndroid);
   ("runAndroidDevice", FailedToRunOnAndroid);
   ("runIosSimulator", FailedToRunOnIos);
   ("runIosDevice", FailedToRunOnIos);
   ("runExponent", FailedToRunExponent);
   ("runWindows", FailedToRunOnWindows);
   ("runMacOS", FailedToRunOnMacOS);
   ("startPackager", FailedToStartPackager);
   ("stopPackager", FailedToStopPackager);
   ("restartPackager", FailedToRestartPackager);
   ("publishToExpHost", FailedToPublishToExpHost);
   ("startLogCatMonitor", AndroidCouldNotStartLogCatMonitor);
   ("stopLogCatMonitor", AndroidCouldNotStopLogCatMonitor);
   ("startNetworkInspector", CouldNotStartNetworkInspector);
   ("stopNetworkInspector", CouldNotStopNetworkInspector);
   ("showDevMenu", CommandFailedError);
   ("reloadApp", CommandFailedError);
   ("runInspector", CommandFailedError);
   ("selectAndInsertDebugConfiguration", CommandFailedError)].

(** [registerVSCodeCommand]: the command is registered under
    [reactNative.<commandName>] and its registration is pushed to the
    subscriptions. *)
Definition registerVSCodeCommand (commandName : string) (error : CommandError) : X unit :=
  push_subscription ("reactNative." ++ commandName).

Fixpoint xforEach {A} (l : list A) (f : A → X unit) : X unit :=
  match l with
  | [] => xret tt
  | a :: l' => f a ;; xforEach l' f
  end.

(** [registerReactNativeCommands] *)
Definition registerReactNativeCommands : X unit :=
  xforEach registered_commands (λ c, registerVSCodeCommand c.1 c.2).

(** The handler registered for [selectAndInsertDebugConfiguration]: what it
    throws ([inl]), or the elements 0, 1 and 2 of the arguments, which it
    passes on as [document], [position] and [token] ([None] would be an
    index outside the array).  The guard looks at the length of the array
    only, not at the values in it. *)
Definition selectAndInsertDebugConfiguration_handler {Arg : Type}
    (provider : bool) (commandArgs : list Arg)
  : InternalErrorCode + (option Arg * option Arg * option Arg) :=
  if negb provider || (length commandArgs <? 3)%nat then inl CommandFailed
  else inr (commandArgs !! 0%nat, commandArgs !! 1%nat, commandArgs !! 2%nat).

(** Modelled from the spec: [EntryPointHandler.runApp] is not part of the
    sources.  The top-level wrapper runs the code; a failure is reported to
    telemetry under the activation error and surfaces to the caller. *)
Definition runApp (codeToRun : X unit) : X unit :=
  xcatch codeToRun (λ reason,
    notice (SendErrorEvent "ExtensionActivationFailed") ;; xthrow reason).

(** The subscriptions [activateRunApp] pushes before it turns to the
    folders, in source order. *)
Definition activation_subscriptions : list string :=
  ["onDidChangeWorkspaceFolders";
   "onDidChangeConfiguration";
   "TipNotificationService";
   "debugConfigurationProvider:REACT_NATIVE";
   "completionItemProvider:json";
   "completionItemProvider:jsonWithComments";
   "debugAdapterDescriptorFactory:REACT_NATIVE";
   "debugAdapterDescriptorFactory:REACT_NATIVE_DIRECT";
   "sessionManager";
   "onDidTerminateRootDebugSession"].

(** [workspaceFolders.forEach(folder => promises.push(handler(folder)))]
    followed by [await Promise.all(promises)]: a handler is started for
    every folder and runs to its end whether or not another one rejects; the
    awaiting code is thrown the first rejection, if there is one.  The
    handlers are run one after the other here. *)
Fixpoint Promise_all (folders : list WorkspaceFolder)
    (handler : WorkspaceFolder → M unit) : M (option JsError) :=
  match folders with
  | [] => ret None
  | folder :: rest =>
      (first <- try_catch (handler folder ;; ret None) (λ reason, ret (Some reason)) ;;
       later <- Promise_all rest handler ;;
       ret (match first with
            | Some reason => Some reason
            | None => later
            end))%js
  end.

Section Activate.

Context `{Semver} (editor : Editor) (host : Host).

(** The function passed to [runApp], with the handler of a folder as a
    parameter: the source starts [onFolderAdded] for every folder, and what
    is shown about the order of the registrations holds for any handler,
    also one that rejects.  The commands are registered after the awaited
    handlers, and not at all when one of them has rejected. *)
Definition activateRunApp_with (handler : WorkspaceFolder → M unit) : X unit :=
  xforEach activation_subscriptions push_subscription ;;
  notice (TelemetrySend "activate") ;;
  rejected <-
    match workspaceFolders editor with
    | Some folders =>
        lift (outputChannelLogger_debug
                ("Projects found: "
                 ++ CommandExecutor.show (N.of_nat (length folders)))) ;;
        lift (Promise_all folders handler)
    | None =>
        lift (outputChannelLogger_warning "Could not find workspace while activating") ;;
        notice (SendErrorEvent "ActivateCouldNotFindWorkspace") ;;
        xret None
    end ;;
  match rejected with
  | Some reason => xthrow reason
  | None => registerReactNativeCommands
  end.

(** [activateRunApp] *)
Definition activateRunApp : X unit :=
  activateRunApp_with (onFolderAdded host).

(** [activate]; [context] is the array [context.subscriptions] that the
    editor hands over.  The inner computation answers whether [activate]
    goes on ([false] is the early [return]). *)
Definition activate (context : list Subscription) : X unit :=
  let extensionName := getExtensionName editor in
  if negb (js_truthy (getExtensionVersion editor)) then
    xthrow (Failure "Extension version is not found")
  else
    let appVersion := default "" (getExtensionVersion editor) in
    goes_on <-
      (if js_truthy extensionName then
         isUpdatedExtension <- isUpdatedVersion appVersion ;;
         stops <-
           (if includes "preview" (default "" extensionName) then
              showTwoVersionFoundNotification editor
            else
              (if (isUpdatedExtension : bool)
               then showChangelogNotificationOnUpdate editor appVersion
               else xret tt) ;;
              xret false) ;;
         if (stops : bool) then xret false
         else
           (if (isUpdatedExtension : bool) then notice UpdateTipsConfig else xret tt) ;;
           notice ShowTipNotification ;;
           xret true
       else xret true) ;;
    if (goes_on : bool) then
      lift (outputChannelLogger_debug "Begin to activate...") ;;
      lift (outputChannelLogger_debug ("Extension version: " ++ appVersion)) ;;
      set_debugConfigProvider true ;;
      lift (set_subscriptions context) ;;
      runApp activateRunApp
    else xret tt.

(** How the promise of [deactivate] ends. *)
Inductive Settled := Resolves | NeverSettles.

(** [deactivate]: the provider is dropped, then the packagers and the
    element inspector are stopped in a promise chain without a rejection
    handler; [resolve] is called at the end of the chain only.  The callback
    handed to [entryPointHandler.runFunction] does not return the chain, so
    the wrapper sees the synchronous part alone. *)
Definition deactivate : X Settled :=
  ext <- get_extension ;;
  (if debugConfigProvider ext then set_debugConfigProvider false else xret tt) ;;
  notice StopAllPackagers ;;
  if stopAllPackagers editor then
    notice StopElementInspector ;;
    if stopElementInspector editor then
      notice LogCatCleanUp ;;
      xret Resolves
    else xret NeverSettles
  else xret NeverSettles.

End Activate.

End Activation.

(** ** Sequences of operations within one process lifetime *)

(** What can happen to the module state: a folder is added or removed, the
    workspace reports a change of several folders, or
    [createAdditionalWorkspaceFolder] is called. *)
Inductive Operation :=
  | FolderAdded (folder : WorkspaceFolder)
  | FolderRemoved (folder : WorkspaceFolder)
  | WorkspaceFoldersChanged (removed added : list WorkspaceFolder)
  | CreateAdditional (folderPath : string).

(** One operation, run against the surroundings it finds (the file system
    and the settings may differ from one operation to the next).  The second
    component is the index handed out, if one was.  An exception ends the
    handler, not the process: the state it leaves behind stays. *)
Definition step `{Semver} (op : Host * Operation) (st : State) : State * option Z :=
  match op.2 with
  | FolderAdded folder => ((onFolderAdded op.1 folder st).2, None)
  | FolderRemoved folder => ((onFolderRemoved folder st).2, None)
  | WorkspaceFoldersChanged removed added =>
      ((onChangeWorkspaceFolders op.1 removed added st).2, None)
  | CreateAdditional folderPath =>
      match createAdditionalWorkspaceFolder op.1 folderPath st with
      | (Returned (Some newFolder), st') => (st', Some (folder_index newFolder))
      | (_, st') => (st', None)
      end
  end.

(** The state after a sequence of operations and the indices issued, oldest
    first. *)
Fixpoint run_operations `{Semver} (ops : list (Host * Operation)) (st : State)
  : State * list Z :=
  match ops with
  | [] => (st, [])
  | op :: ops' =>
      let '(st1, issued) := step op st in
      let '(st2, later) := run_operations ops' st1 in
      (st2, (option_list issued ++ later)%list)
  end.

(** ** Concrete scenarios *)

Module Scenario.

Definition versions (rn : string) : RNPackageVersions :=
  {| reactNativeVersion := rn;
     reactNativeWindowsVersion := "errorMissingPackage";
     reactNativeMacOSVersion := "errorMissingPackage" |}.

(** A host whose project has version [rn] of react-native and whose
    [ReactDirManager] behaves as given. *)
Definition host (rn : string) (setup_result : option JsError)
    (dispose_result : DisposeBehaviour) : Host :=
  {| getReactNativeProjectRoot := λ rootPath, rootPath;
     tryToGetRNSemverValidVersionsFromProjectPackage := λ _, versions rn;
     isVersionError := String.prefix "error";
     existsSync := λ p, String.eqb p "/work/extra";
     basename := λ p, p;
     setup := λ _, setup_result;
     dispose := λ _, dispose_result |}.

Definition folder : WorkspaceFolder :=
  {| folder_uri := "/work/app"; folder_name := "app"; folder_index := 0 |}.

(** The module state once [folder] has been added with a supported
    version, under a host whose [ReactDirManager] disposes as given. *)
Definition registered (dispose_result : DisposeBehaviour) : State :=
  (@onFolderAdded SemverRef.semver
     (host "0.60.4" None dispose_result) folder initial_state).2.

Definition executor (r : CommandExecutor.ProcessResult) (localBinary : bool)
    (globalName : string) : CommandExecutor.Env :=
  {| CommandExecutor.run := λ _, r;
     CommandExecutor.fileExists := λ _, localBinary;
     CommandExecutor.ReactNativeCommand := globalName |}.

End Scenario.

(** ** Properties of computations *)

(** [m] moves every state to one related to it by [R], whether it returns
    or throws. *)
Definition keeps {A} (R : relation State) (m : M A) : Prop :=
  ∀ st, R st (m st).2.

(** [m] always returns: no exception leaves it. *)
Definition returns {A} (m : M A) : Prop :=
  ∀ st, ∃ a, (m st).1 = Returned a.

(** The registry is the same. *)
Definition same_cache (st st' : State) : Prop :=
  projectsCache st' = projectsCache st.

(** The counter has not gone down. *)
Definition counter_le (st st' : State) : Prop :=
  (COUNT_WORKSPACE_FOLDERS st ≤ COUNT_WORKSPACE_FOLDERS st')%Z.

(** A property's disposal in [onFolderRemoved] goes through: the value is
    not [null]/[undefined] and its [dispose], if it has one, returns. *)
Definition disposes_cleanly (kv : string * JsProp) : bool :=
  match kv.2 with
  | PNullish => false
  | PObject r =>
      match res_dispose r with
      | Some (DisposeThrows _) => false
      | _ => true
      end
  end.

(** The characters of a decimal number as it is printed. *)
Definition chars (d : Decimal.uint) : list ascii :=
  String.list_ascii_of_string (NilEmpty.string_of_uint d).

(** A run of digits stops here: at the end, or at a character that is not a
    digit. *)
Definition stops (rest : list ascii) : Prop :=
  match rest with
  | c :: _ => SemverRef.is_digit c = false
  | [] => True
  end.

(** The minimum-version gate as a condition on the version string. *)
Definition below_minimum `{Semver} (version : string) : bool :=
  js_truthy (semver_valid version) && negb (semver_gte version "0.19.0").

(** [onFolderAdded] goes all the way to the registration: the version was
    detected, it passes the gate, the launcher's setup resolves and the
    project root is not registered yet. *)
Definition registers `{Semver} (host : Host) (folder : WorkspaceFolder) (st : State) : bool :=
  let projectRootPath := getReactNativeProjectRoot host (folder_uri folder) in
  let version :=
    reactNativeVersion
      (tryToGetRNSemverValidVersionsFromProjectPackage host projectRootPath) in
  negb (isVersionError host version)
  && negb (below_minimum version)
  && bool_decide (setup host (folder_uri folder) = None)
  && bool_decide (projectsCache st !! projectRootPath = None).

(** The state with further events at the end of its trace. *)
Definition add_events (evs : list Event) (st : State) : State :=
  {| projectsCache := projectsCache st;
     COUNT_WORKSPACE_FOLDERS := COUNT_WORKSPACE_FOLDERS st;
     subscriptions := subscriptions st;
     trace := trace st ++ evs |}.

(** What [activateCommands] emits. *)
Definition activation_events (host : Host) (versions : RNPackageVersions) : list Event :=
  ((if negb (isVersionError host (reactNativeWindowsVersion versions))
    then [SetContext "IS_RN_WINDOWS_PROJECT"] else [])
   ++ (if negb (isVersionError host (reactNativeMacOSVersion versions))
       then [SetContext "IS_RN_MACOS_PROJECT"] else []))%list.

(** The two debug lines every [onFolderAdded] starts with. *)
Definition announcement (host : Host) (folder : WorkspaceFolder) : list Event :=
  let projectRootPath := getReactNativeProjectRoot host (folder_uri folder) in
  [LogDebug ("Add project: " ++ projectRootPath);
   LogDebug ("React Native version: "
             ++ reactNativeVersion
                  (tryToGetRNSemverValidVersionsFromProjectPackage host projectRootPath))].

(** The launcher [onFolderAdded] registers for a folder. *)
Definition launcher_of (host : Host) (folder : WorkspaceFolder) : AppLauncher :=
  new_AppLauncher (new_ReactDirManager host (folder_uri folder)) folder.

(** The event of a call of [ProjectsStorage.addFolder]. *)
Definition is_AddFolder (e : Event) : bool :=
  match e with
  | AddFolder _ => true
  | _ => false
  end.

(** A subscription that has not been disposed. *)
Definition live (s : Subscription) : Prop := isDisposed s = false.

#[global] Instance live_dec s : Decision (live s).
Proof. unfold live. apply _. Defined.

(** No two neighbours in the array are both disposed. *)
Fixpoint no_adjacent_disposed (l : list Subscription) : bool :=
  match l with
  | a :: (b :: _) as tail =>
      negb (isDisposed a && isDisposed b) && no_adjacent_disposed tail
  | _ => true
  end.

(** The counter is the same. *)
Definition same_counter (st st' : State) : Prop :=
  COUNT_WORKSPACE_FOLDERS st' = COUNT_WORKSPACE_FOLDERS st.

(** Every entry of the later registry is an entry of the earlier one. *)
Definition registry_shrinks (st st' : State) : Prop :=
  ∀ k l, projectsCache st' !! k = Some l → projectsCache st !! k = Some l.

(** Every launcher sits under the project root that [root_of] gives for the
    path of its folder. *)
Definition well_keyed (root_of : string → string) (st : State) : Prop :=
  ∀ k l, projectsCache st !! k = Some l →
         k = root_of (folder_uri (workspaceFolder l)).

(** A well-keyed registry stays well keyed. *)
Definition stays_well_keyed (root_of : string → string) (st st' : State) : Prop :=
  well_keyed root_of st → well_keyed root_of st'.

(** The stored version is missing or is not [currentVersion]. *)
Definition version_changed (currentVersion : string) (ext : Activation.Extension) : bool :=
  negb (bool_decide (Activation.config ext !! "version" = Some currentVersion)).

(** [activate] returns early: the preview extension finds the stable one. *)
Definition stops_early (editor : Activation.Editor) : bool :=
  js_truthy (Activation.getExtensionName editor)
  && Activation.includes "preview" (default "" (Activation.getExtensionName editor))
  && Activation.stableExtensionInstalled editor.

(** A subscription as it is pushed. *)
Definition pushed (id : string) : Subscription :=
  {| sub_id := id; isDisposed := false |}.

(** [onFolderAdded] gets as far as the subscription of the folder's manager:
    the version was detected, it passes the gate and the setup resolves. *)
Definition sets_up `{Semver} (host : Host) (folder : WorkspaceFolder) : bool :=
  let projectRootPath := getReactNativeProjectRoot host (folder_uri folder) in
  let version :=
    reactNativeVersion
      (tryToGetRNSemverValidVersionsFromProjectPackage host projectRootPath) in
  negb (isVersionError host version)
  && negb (below_minimum version)
  && bool_decide (setup host (folder_uri folder) = None).

(** The module state when [activateRunApp] turns to the folders: the ten
    registrations are pushed and the workspace has been looked at. *)
Definition started (editor : Activation.Editor) (st : State) : State :=
  {| projectsCache := projectsCache st;
     COUNT_WORKSPACE_FOLDERS := COUNT_WORKSPACE_FOLDERS st;
     subscriptions :=
       (subscriptions st ++ (pushed <$> Activation.activation_subscriptions))%list;
     trace :=
       (trace st
        ++ [match Activation.workspaceFolders editor with
            | Some folders =>
                LogDebug ("Projects found: "
                          ++ CommandExecutor.show (N.of_nat (length folders)))
            | None => LogWarning "Could not find workspace while activating"
            end])%list |}.

(** The identifiers the commands are registered under. *)
Definition command_ids : list string :=
  (λ c, "reactNative." ++ c.1) <$> Activation.registered_commands.

(** What [activateRunApp] sends and reports. *)
Definition run_notices (editor : Activation.Editor) : list Activation.Notice :=
  Activation.TelemetrySend "activate"
  :: match Activation.workspaceFolders editor with
     | Some _ => []
     | None => [Activation.SendErrorEvent "ActivateCouldNotFindWorkspace"]
     end.

(** What [showChangelogNotificationOnUpdate] shows. *)
Definition changelog_notices (editor : Activation.Editor) (currentVersion : string)
  : list Activation.Notice :=
  match Activation.findChangelog editor with
  | Some changelogFile =>
      if negb (String.eqb changelogFile "")
      then [Activation.InformationMessageThenPreview
              ("React Native Tools have been updated to " ++ currentVersion)
              changelogFile]
      else []
  | None => []
  end.

(** What an [activate] that goes on shows before it turns to the
    workspace. *)
Definition update_notices (editor : Activation.Editor) (currentVersion : string)
    (changed : bool) : list Activation.Notice :=
  if js_truthy (Activation.getExtensionName editor) then
    ((if Activation.includes "preview" (default "" (Activation.getExtensionName editor))
      then []
      else if changed then changelog_notices editor currentVersion else [])
     ++ (if changed then [Activation.UpdateTipsConfig] else [])
     ++ [Activation.ShowTipNotification])%list
  else [].

(** A concrete editor and a fresh extension to run [activate] on. *)
Module Workbench.

Definition editor (name : option string) (folders : option (list WorkspaceFolder))
  : Activation.Editor :=
  {| Activation.getExtensionName := name;
     Activation.getExtensionVersion := Some "1.4.0";
     Activation.stableExtensionInstalled := true;
     Activation.findChangelog := Some "/extension/CHANGELOG.md";
     Activation.workspaceFolders := folders;
     Activation.stopAllPackagers := true;
     Activation.stopElementInspector := true |}.

Definition fresh : Activation.Extension :=
  {| Activation.module_state := initial_state;
     Activation.config := ∅;
     Activation.debugConfigProvider := false;
     Activation.notices := [] |}.

End Workbench.

(** * Theorems *)

(** ** The monad *)

Section Keeps.

Context (R : relation State) `{!PreOrder R}.

Lemma keeps_ret {A} (a : A) : keeps R (ret a).
Proof. intros st. simpl. reflexivity. Qed.

Lemma keeps_throw {A} e : keeps R (@throw A e).
Proof. intros st. simpl. reflexivity. Qed.

Lemma keeps_get_state : keeps R get_state.
Proof. intros st. simpl. reflexivity. Qed.

Lemma keeps_bind {A B} (m : M A) (k : A → M B) :
  keeps R m → (∀ a, keeps R (k a)) → keeps R (bind m k).
Proof.
  intros Hm Hk st. unfold bind. specialize (Hm st).
  destruct (m st) as [[a|e] st1]; simpl in *; [|done].
  etransitivity; [exact Hm | apply Hk].
Qed.

Lemma keeps_try_catch {A} (m : M A) (h : JsError → M A) :
  keeps R m → (∀ e, keeps R (h e)) → keeps R (try_catch m h).
Proof.
  intros Hm Hh st. unfold try_catch. specialize (Hm st).
  destruct (m st) as [[a|e] st1]; simpl in *; [done|].
  etransitivity; [exact Hm | apply Hh].
Qed.

Lemma keeps_forEach {A} (l : list A) (f : A → M unit) :
  (∀ x, keeps R (f x)) → keeps R (forEach l f).
Proof.
  intros Hf. induction l as [|x l IH]; simpl.
  - apply keeps_ret.
  - apply keeps_bind; [apply Hf | intros _; exact IH].
Qed.

End Keeps.

Lemma returns_ret {A} (a : A) : returns (ret a).
Proof. intros st. by exists a. Qed.

Lemma returns_bind {A B} (m : M A) (k : A → M B) :
  returns m → (∀ a, returns (k a)) → returns (bind m k).
Proof.
  intros Hm Hk st. unfold bind. destruct (Hm st) as [a Ha].
  destruct (m st) as [o st1]; simpl in Ha; subst o. apply Hk.
Qed.

Lemma returns_try_catch {A} (m : M A) (h : JsError → M A) :
  (∀ e, returns (h e)) → returns (try_catch m h).
Proof.
  intros Hh st. unfold try_catch.
  destruct (m st) as [[a|e] st1]; [by exists a | apply Hh].
Qed.

Lemma returns_forEach {A} (l : list A) (f : A → M unit) :
  (∀ x, returns (f x)) → returns (forEach l f).
Proof.
  intros Hf. induction l as [|x l IH]; simpl.
  - apply returns_ret.
  - apply returns_bind; [apply Hf | intros _; exact IH].
Qed.

Lemma returns_emit e : returns (emit e).
Proof. intros st. by exists tt. Qed.

#[global] Instance same_cache_preorder : PreOrder same_cache.
Proof.
  split; [by intros st | intros a b c Hab Hbc].
  unfold same_cache in *. congruence.
Qed.

#[global] Instance counter_le_preorder : PreOrder counter_le.
Proof.
  split; [intros st; unfold counter_le; lia | intros a b c].
  unfold counter_le. lia.
Qed.

Lemma keeps_counter_emit e : keeps counter_le (emit e).
Proof. intros st. unfold counter_le. simpl. lia. Qed.

Lemma keeps_counter_set_subscriptions l : keeps counter_le (set_subscriptions l).
Proof. intros st. unfold counter_le. simpl. lia. Qed.

Lemma keeps_counter_set_projectsCache m : keeps counter_le (set_projectsCache m).
Proof. intros st. unfold counter_le. simpl. lia. Qed.

(** [COUNT_WORKSPACE_FOLDERS++] *)
Lemma keeps_counter_increment :
  keeps counter_le
    (st <- get_state ;; set_COUNT_WORKSPACE_FOLDERS (COUNT_WORKSPACE_FOLDERS st + 1)).
Proof. intros st. unfold counter_le. simpl. lia. Qed.

Lemma keeps_cache_emit e : keeps same_cache (emit e).
Proof. by intros st. Qed.

Lemma keeps_cache_set_subscriptions l : keeps same_cache (set_subscriptions l).
Proof. by intros st. Qed.

Lemma keeps_cache_set_COUNT n : keeps same_cache (set_COUNT_WORKSPACE_FOLDERS n).
Proof. by intros st. Qed.

(** Walks through a computation built from the combinators, leaving the
    goals no rule applies to. *)
Ltac keeps_auto :=
  repeat match goal with
    | |- keeps ?R (ret _) => apply (keeps_ret R)
    | |- keeps ?R (throw _) => apply (keeps_throw R)
    | |- keeps ?R get_state => apply (keeps_get_state R)
    | |- keeps counter_le (emit _) => apply keeps_counter_emit
    | |- keeps counter_le (set_subscriptions _) =>
        apply keeps_counter_set_subscriptions
    | |- keeps counter_le (set_projectsCache _) =>
        apply keeps_counter_set_projectsCache
    | |- keeps counter_le (bind get_state (λ st, set_COUNT_WORKSPACE_FOLDERS _)) =>
        apply keeps_counter_increment
    | |- keeps same_cache (emit _) => apply keeps_cache_emit
    | |- keeps same_cache (set_subscriptions _) =>
        apply keeps_cache_set_subscriptions
    | |- keeps same_cache (set_COUNT_WORKSPACE_FOLDERS _) =>
        apply keeps_cache_set_COUNT
    | |- keeps ?R (bind _ _) => apply (keeps_bind R); [| intros ?]
    | |- keeps ?R (try_catch _ _) => apply (keeps_try_catch R); [| intros ?]
    | |- keeps ?R (forEach _ _) => apply (keeps_forEach R); intros ?
    | |- keeps _ (match ?x with _ => _ end) => destruct x
    end.

(** ** The minimum-version gate *)

Lemma isSupportedVersion_accepts `{Semver} version st :
  below_minimum version = false →
  isSupportedVersion version st = (Returned true, st).
Proof.
  unfold isSupportedVersion, below_minimum. intros ->. reflexivity.
Qed.

Lemma isSupportedVersion_rejects `{Semver} version st :
  below_minimum version = true →
  isSupportedVersion version st
  = (Returned false,
     {| projectsCache := projectsCache st;
        COUNT_WORKSPACE_FOLDERS := COUNT_WORKSPACE_FOLDERS st;
        subscriptions := subscriptions st;
        trace := trace st
                 ++ [TelemetrySimpleEvent "unsupportedRNVersion" version;
                     ShowWarningMessage shortMessage;
                     LogWarning (shortMessage ++ ": " ++ version)] |}).
Proof.
  unfold isSupportedVersion, below_minimum. intros ->.
  unfold bind, emit, outputChannelLogger_warning, emit, ret. simpl.
  by rewrite <- !app_assoc.
Qed.

(** The gate answers [false] exactly for a string that [semver] accepts as
    a version and orders below 0.19.0. *)
Lemma isSupportedVersion_false_iff `{Semver} version st :
  (isSupportedVersion version st).1 = Returned false
  ↔ js_truthy (semver_valid version) = true ∧ semver_gte version "0.19.0" = false.
Proof.
  destruct (below_minimum version) eqn:Hb.
  - rewrite (isSupportedVersion_rejects _ _ Hb). simpl.
    unfold below_minimum in Hb. apply andb_true_iff in Hb as [Hv Hg].
    apply negb_true_iff in Hg. naive_solver.
  - rewrite (isSupportedVersion_accepts _ _ Hb). simpl.
    unfold below_minimum in Hb. split; [done|]. intros [Hv Hg].
    rewrite Hv, Hg in Hb. done.
Qed.

(** C10: a version string that is not a valid semantic version
    ([semver.valid] answers [null]) passes the gate: [isSupportedVersion]
    returns [true] and reports nothing, so a custom version such as
    "0.2018.0107-v1" is treated as supported. *)
Theorem isSupportedVersion_non_semver `{Semver} version st :
  semver_valid version = None →
  isSupportedVersion version st = (Returned true, st).
Proof.
  intros Hv. apply isSupportedVersion_accepts.
  unfold below_minimum. by rewrite Hv.
Qed.

Lemma isSupportedVersion_non_semver_witness :
  SemverRef.valid "0.2018.0107-v1" = None
  ∧ @isSupportedVersion SemverRef.semver "0.2018.0107-v1" initial_state
    = (Returned true, initial_state).
Proof.
  split; [reflexivity|].
  apply (@isSupportedVersion_non_semver SemverRef.semver). reflexivity.
Defined.

(** ** The synthetic folder-index counter *)

Lemma keeps_counter_call_dispose r b : keeps counter_le (call_dispose r b).
Proof. destruct b; simpl; keeps_auto. Qed.

Lemma keeps_counter_dispose_launcher l :
  keeps counter_le (ProjectsStorage.dispose_launcher l).
Proof.
  unfold ProjectsStorage.dispose_launcher. keeps_auto.
  apply keeps_counter_call_dispose.
Qed.

Lemma keeps_counter_onFolderRemoved folder : keeps counter_le (onFolderRemoved folder).
Proof.
  unfold onFolderRemoved, ProjectsStorage.getFolder, ProjectsStorage.delFolder,
    dispose_property, outputChannelLogger_debug.
  keeps_auto;
    first [apply keeps_counter_call_dispose | apply keeps_counter_dispose_launcher].
Qed.

Lemma keeps_counter_onFolderAdded `{Semver} host folder :
  keeps counter_le (onFolderAdded host folder).
Proof.
  unfold onFolderAdded, isSupportedVersion, activateCommands, runFunction,
    setupAndDispose, ProjectsStorage.addFolder, outputChannelLogger_debug,
    outputChannelLogger_warning.
  keeps_auto.
  all: repeat match goal with
         | |- keeps _ (if ?b then _ else _) => destruct b
         end; keeps_auto.
Qed.

Lemma keeps_counter_onChangeWorkspaceFolders `{Semver} host removed added :
  keeps counter_le (onChangeWorkspaceFolders host removed added).
Proof.
  unfold onChangeWorkspaceFolders. keeps_auto.
  - apply keeps_counter_onFolderRemoved.
  - apply keeps_counter_onFolderAdded.
Qed.

(** A call of [createAdditionalWorkspaceFolder] that hands out an index
    hands out the counter's new value, one above the old one; a call that
    answers [null] leaves the counter alone. *)
Lemma createAdditionalWorkspaceFolder_counter host folderPath st :
  match createAdditionalWorkspaceFolder host folderPath st with
  | (Returned (Some newFolder), st') =>
      folder_index newFolder = COUNT_WORKSPACE_FOLDERS st'
      ∧ COUNT_WORKSPACE_FOLDERS st' = (COUNT_WORKSPACE_FOLDERS st + 1)%Z
  | (_, st') => st' = st
  end.
Proof.
  unfold createAdditionalWorkspaceFolder.
  destruct (existsSync host folderPath); simpl; done.
Qed.

Lemma step_counter `{Semver} op st :
  (COUNT_WORKSPACE_FOLDERS st ≤ COUNT_WORKSPACE_FOLDERS (step op st).1)%Z
  ∧ ∀ i, (step op st).2 = Some i →
         i = COUNT_WORKSPACE_FOLDERS (step op st).1
         ∧ (COUNT_WORKSPACE_FOLDERS st < i)%Z.
Proof.
  unfold step. destruct op as [host [folder|folder|removed added|folderPath]]; simpl.
  - split; [apply keeps_counter_onFolderAdded | done].
  - split; [apply keeps_counter_onFolderRemoved | done].
  - split; [apply keeps_counter_onChangeWorkspaceFolders | done].
  - pose proof (createAdditionalWorkspaceFolder_counter host folderPath st) as Hc.
    destruct (createAdditionalWorkspaceFolder host folderPath st)
      as [[[newFolder|]|e] st']; simpl.
    + destruct Hc as [Hi Hn]. split; [lia|]. intros i [= <-]. lia.
    + subst st'. split; [lia | done].
    + subst st'. split; [lia | done].
Qed.

Lemma run_operations_app `{Semver} ops1 ops2 st :
  run_operations (ops1 ++ ops2) st
  = let '(st1, issued1) := run_operations ops1 st in
    let '(st2, issued2) := run_operations ops2 st1 in
    (st2, (issued1 ++ issued2)%list).
Proof.
  revert st. induction ops1 as [|op ops1 IH]; intros st; simpl.
  - by destruct (run_operations ops2 st).
  - destruct (step op st) as [st1 issued]. rewrite IH.
    destruct (run_operations ops1 st1) as [st2 later].
    destruct (run_operations ops2 st2) as [st3 last].
    by rewrite app_assoc.
Qed.

(** Along any sequence the counter does not go down, every index issued
    lies above the counter's value at the start and at or below its value
    at the end, and the indices issued go strictly up. *)
Lemma run_operations_counter `{Semver} ops st :
  (COUNT_WORKSPACE_FOLDERS st ≤ COUNT_WORKSPACE_FOLDERS (run_operations ops st).1)%Z
  ∧ Forall (λ i, COUNT_WORKSPACE_FOLDERS st < i
                 ≤ COUNT_WORKSPACE_FOLDERS (run_operations ops st).1)%Z
           (run_operations ops st).2
  ∧ StronglySorted Z.lt (run_operations ops st).2.
Proof.
  revert st. induction ops as [|op ops IH]; intros st; simpl.
  - split; [lia|]. split; constructor.
  - destruct (step_counter op st) as [Hle Hissued].
    destruct (step op st) as [st1 issued]; simpl in *.
    destruct (IH st1) as (Hle' & Hall & Hsorted).
    destruct (run_operations ops st1) as [st2 later]; simpl in *.
    split; [lia|].
    assert (Forall (λ i, COUNT_WORKSPACE_FOLDERS st < i
                         ≤ COUNT_WORKSPACE_FOLDERS st2)%Z later) as Hlater.
    { eapply Forall_impl; [exact Hall|]. simpl. intros i ?. lia. }
    destruct issued as [i|]; simpl; [|done].
    destruct (Hissued i eq_refl) as [-> Hlt].
    split; [constructor; [lia | done]|].
    constructor; [done|].
    eapply Forall_impl; [exact Hall|]. simpl. intros j ?. lia.
Qed.

(** C2: within one process lifetime, however folders are added and removed
    and [createAdditionalWorkspaceFolder] is called, the counter never
    decreases (its value after a longer sequence is at least its value after
    any prefix), every index issued is strictly greater than all indices
    issued before it, and every issued index is greater than the seed 9000. *)
Theorem counter_monotone_indices_fresh `{Semver} (before after : list (Host * Operation)) :
  let earlier := run_operations before initial_state in
  let later := run_operations (before ++ after) initial_state in
  (COUNT_WORKSPACE_FOLDERS earlier.1 ≤ COUNT_WORKSPACE_FOLDERS later.1)%Z
  ∧ StronglySorted Z.lt later.2
  ∧ Forall (λ i, 9000 < i)%Z later.2.
Proof.
  simpl. split.
  - rewrite run_operations_app.
    destruct (run_operations before initial_state) as [st1 issued1] eqn:E1.
    pose proof (run_operations_counter after st1) as (Hle & _ & _).
    destruct (run_operations after st1) as [st2 issued2]. simpl in *. done.
  - pose proof (run_operations_counter (before ++ after) initial_state)
      as (_ & Hall & Hsorted).
    split; [done|].
    eapply Forall_impl; [exact Hall|]. simpl. intros i ?. lia.
Qed.

(** ** Adding a folder *)

Lemma add_events_app evs1 evs2 st :
  add_events evs2 (add_events evs1 st) = add_events (evs1 ++ evs2) st.
Proof. unfold add_events. simpl. by rewrite app_assoc. Qed.

Lemma emit_add_events e st : emit e st = (Returned tt, add_events [e] st).
Proof. reflexivity. Qed.

Lemma activateCommands_events host versions st :
  activateCommands host versions st
  = (Returned tt, add_events (activation_events host versions) st).
Proof.
  unfold activateCommands, activation_events, bind.
  destruct (negb (isVersionError host (reactNativeWindowsVersion versions)));
    destruct (negb (isVersionError host (reactNativeMacOSVersion versions)));
    destruct st; unfold emit, ret, add_events; simpl;
    rewrite ?app_nil_r, <- ?app_assoc; done.
Qed.

(** Closes an equation between two final states that differ in how their
    traces are bracketed. *)
Ltac finish_trace :=
  unfold emit, ret, throw, add_events, announcement, launcher_of,
    new_ReactDirManager;
  simpl; rewrite <- ?app_assoc; simpl; reflexivity.

Section OnFolderAdded.

Context `{Semver} (host : Host) (folder : WorkspaceFolder) (st : State).

Let rootPath := folder_uri folder.
Let projectRootPath := getReactNativeProjectRoot host rootPath.
Let versions := tryToGetRNSemverValidVersionsFromProjectPackage host projectRootPath.
Let version := reactNativeVersion versions.

(** Version detection failed: the folder is skipped and the failure goes
    to the log and to telemetry. *)
Lemma onFolderAdded_version_error :
  isVersionError host version = true →
  onFolderAdded host folder st
  = (Returned tt,
     add_events
       (announcement host folder
        ++ [LogDebug ("react-native package version is not found in "
                      ++ projectRootPath ++ ". Reason: " ++ version);
            TelemetryErrorEvent "AddProjectReactNativeVersionIsEmpty"
              CouldNotFindProjectVersion version]) st).
Proof.
  intros Herr. unfold onFolderAdded, outputChannelLogger_debug.
  fold rootPath projectRootPath versions version. rewrite Herr.
  unfold bind. rewrite !emit_add_events, !add_events_app. reflexivity.
Qed.

(** The version is below the minimum: the gate reports it and the folder
    is skipped. *)
Lemma onFolderAdded_unsupported :
  isVersionError host version = false →
  below_minimum version = true →
  onFolderAdded host folder st
  = (Returned tt,
     add_events
       (announcement host folder
        ++ [TelemetrySimpleEvent "unsupportedRNVersion" version;
            ShowWarningMessage shortMessage;
            LogWarning (shortMessage ++ ": " ++ version);
            LogDebug ("react-native@" ++ version ++ " isn't supported")]) st).
Proof.
  intros Herr Hlow. unfold onFolderAdded, outputChannelLogger_debug.
  fold rootPath projectRootPath versions version. rewrite Herr.
  unfold bind at 1 2. rewrite !emit_add_events.
  unfold bind at 1. rewrite (isSupportedVersion_rejects _ _ Hlow).
  rewrite emit_add_events. unfold add_events. simpl.
  by rewrite <- !app_assoc.
Qed.

(** The launcher's setup rejects: the wrapper reports the failure, nothing
    was subscribed and nothing was registered. *)
Lemma onFolderAdded_setup_fails reason :
  isVersionError host version = false →
  below_minimum version = false →
  setup host rootPath = Some reason →
  onFolderAdded host folder st
  = (Returned tt,
     add_events
       (announcement host folder ++ activation_events host versions
        ++ [LogError DebuggerStubLauncherFailed reason;
            TelemetryErrorEvent "debugger.setupLauncherStub"
              DebuggerStubLauncherFailed ""]) st).
Proof.
  intros Herr Hlow Hsetup. unfold onFolderAdded, outputChannelLogger_debug.
  fold rootPath projectRootPath versions version. rewrite Herr.
  unfold bind at 1 2. rewrite !emit_add_events.
  unfold bind at 1. rewrite (isSupportedVersion_accepts _ _ Hlow).
  unfold bind at 1. rewrite activateCommands_events.
  unfold runFunction, try_catch, setupAndDispose, new_ReactDirManager. simpl.
  fold rootPath. rewrite Hsetup. unfold bind, throw. simpl.
  finish_trace.
Qed.

(** The project root is registered already: the setup has run and the
    manager was subscribed, the registry refuses the second launcher. *)
Lemma onFolderAdded_duplicate other :
  isVersionError host version = false →
  below_minimum version = false →
  setup host rootPath = None →
  projectsCache st !! projectRootPath = Some other →
  onFolderAdded host folder st
  = (Returned tt,
     {| projectsCache := projectsCache st;
        COUNT_WORKSPACE_FOLDERS := COUNT_WORKSPACE_FOLDERS st;
        subscriptions :=
          subscriptions st ++ [{| sub_id := rootPath; isDisposed := false |}];
        trace :=
          trace st
          ++ (announcement host folder ++ activation_events host versions
              ++ [SetupCompleted rootPath; AddFolder projectRootPath;
                  LogError DebuggerStubLauncherFailed
                    (DuplicateProject projectRootPath);
                  TelemetryErrorEvent "debugger.setupLauncherStub"
                    DebuggerStubLauncherFailed ""]) |}).
Proof.
  intros Herr Hlow Hsetup Hdup. unfold onFolderAdded, outputChannelLogger_debug.
  fold rootPath projectRootPath versions version. rewrite Herr.
  unfold bind at 1 2. rewrite !emit_add_events.
  unfold bind at 1. rewrite (isSupportedVersion_accepts _ _ Hlow).
  unfold bind at 1. rewrite activateCommands_events.
  unfold runFunction, try_catch, setupAndDispose, new_ReactDirManager,
    ProjectsStorage.addFolder. simpl.
  fold rootPath. rewrite Hsetup. unfold bind. simpl.
  fold rootPath projectRootPath. rewrite Hdup. finish_trace.
Qed.

(** Everything goes through: the launcher is stored under the project
    root after the setup has completed, and the counter moves up. *)
Lemma onFolderAdded_registered :
  isVersionError host version = false →
  below_minimum version = false →
  setup host rootPath = None →
  projectsCache st !! projectRootPath = None →
  onFolderAdded host folder st
  = (Returned tt,
     {| projectsCache :=
          <[projectRootPath := launcher_of host folder]> (projectsCache st);
        COUNT_WORKSPACE_FOLDERS := COUNT_WORKSPACE_FOLDERS st + 1;
        subscriptions :=
          subscriptions st ++ [{| sub_id := rootPath; isDisposed := false |}];
        trace :=
          trace st
          ++ (announcement host folder ++ activation_events host versions
              ++ [SetupCompleted rootPath; AddFolder projectRootPath]) |}).
Proof.
  intros Herr Hlow Hsetup Hfree. unfold onFolderAdded, outputChannelLogger_debug.
  fold rootPath projectRootPath versions version. rewrite Herr.
  unfold bind at 1 2. rewrite !emit_add_events.
  unfold bind at 1. rewrite (isSupportedVersion_accepts _ _ Hlow).
  unfold bind at 1. rewrite activateCommands_events.
  unfold runFunction, try_catch, setupAndDispose, new_ReactDirManager,
    ProjectsStorage.addFolder. simpl.
  fold rootPath. rewrite Hsetup. unfold bind. simpl.
  fold rootPath projectRootPath. rewrite Hfree. finish_trace.
Qed.

End OnFolderAdded.

Lemma activation_without_AddFolder host versions :
  existsb is_AddFolder (activation_events host versions) = false.
Proof.
  unfold activation_events.
  by destruct (negb (isVersionError host (reactNativeWindowsVersion versions))),
    (negb (isVersionError host (reactNativeMacOSVersion versions))).
Qed.

(** Splits on the path [onFolderAdded] takes and rewrites its result. *)
Ltac onFolderAdded_cases host folder st :=
  let root := constr:(getReactNativeProjectRoot host (folder_uri folder)) in
  let v := constr:(reactNativeVersion
                     (tryToGetRNSemverValidVersionsFromProjectPackage host root)) in
  destruct (isVersionError host v) eqn:Herr;
  [ rewrite (onFolderAdded_version_error host folder st Herr)
  | destruct (below_minimum v) eqn:Hlow;
    [ rewrite (onFolderAdded_unsupported host folder st Herr Hlow)
    | destruct (setup host (folder_uri folder)) as [reason|] eqn:Hsetup;
      [ rewrite (onFolderAdded_setup_fails host folder st reason Herr Hlow Hsetup)
      | destruct (projectsCache st !! root) as [other|] eqn:Hlook;
        [ rewrite (onFolderAdded_duplicate host folder st other Herr Hlow Hsetup Hlook)
        | rewrite (onFolderAdded_registered host folder st Herr Hlow Hsetup Hlook)
        ] ] ] ].

(** C3, as amended: [onFolderAdded] adds a launcher to the registry for the
    folder's project root if and only if version detection succeeds, the
    detected version passes the supported-version gate, the launcher's setup
    completes and the root is not registered yet.  In every other case the
    registry is left as it was; a failed detection is reported to telemetry
    and to the log, and so is an unsupported version. *)
Theorem onFolderAdded_registers_iff `{Semver} (host : Host)
    (folder : WorkspaceFolder) (st : State) :
  let projectRootPath := getReactNativeProjectRoot host (folder_uri folder) in
  let version :=
    reactNativeVersion
      (tryToGetRNSemverValidVersionsFromProjectPackage host projectRootPath) in
  let st' := (onFolderAdded host folder st).2 in
  (registers host folder st = true
   ↔ projectsCache st !! projectRootPath = None
     ∧ projectsCache st'
       = <[projectRootPath := launcher_of host folder]> (projectsCache st))
  ∧ (registers host folder st = false → projectsCache st' = projectsCache st)
  ∧ (isVersionError host version = true →
     projectsCache st' = projectsCache st
     ∧ TelemetryErrorEvent "AddProjectReactNativeVersionIsEmpty"
         CouldNotFindProjectVersion version ∈ trace st'
     ∧ LogDebug ("react-native package version is not found in "
                 ++ projectRootPath ++ ". Reason: " ++ version) ∈ trace st')
  ∧ (isVersionError host version = false → below_minimum version = true →
     projectsCache st' = projectsCache st
     ∧ TelemetrySimpleEvent "unsupportedRNVersion" version ∈ trace st'
     ∧ LogWarning (shortMessage ++ ": " ++ version) ∈ trace st'
     ∧ LogDebug ("react-native@" ++ version ++ " isn't supported") ∈ trace st').
Proof.
  intros projectRootPath version st'. subst projectRootPath version st'.
  unfold registers.
  onFolderAdded_cases host folder st; simpl.
  - split_and!; try done.
    + split; [done|]. intros [Hfree Heq].
      apply (f_equal (λ m, m !! getReactNativeProjectRoot host (folder_uri folder))) in Heq.
      rewrite lookup_insert_eq, Hfree in Heq. done.
    + intros _. split; [done|]. rewrite !elem_of_app.
      split; right; set_solver.
  - split_and!; try done.
    + split; [done|]. intros [Hfree Heq].
      apply (f_equal (λ m, m !! getReactNativeProjectRoot host (folder_uri folder))) in Heq.
      rewrite lookup_insert_eq, Hfree in Heq. done.
    + intros _ _. split; [done|]. rewrite !elem_of_app.
      split_and!; right; set_solver.
  - split_and!; try done.
    split; [done|]. intros [Hfree Heq].
    apply (f_equal (λ m, m !! getReactNativeProjectRoot host (folder_uri folder))) in Heq.
    rewrite lookup_insert_eq, Hfree in Heq. done.
  - split_and!; try done.
    split; [done|]. by intros [Hfree _].
  - split_and!; try done.
Qed.

(** C3, as stated, fails: the version "0.60.4" is detected and passes the
    gate, yet the folder is not registered, because the launcher's setup
    rejects. *)
Lemma onFolderAdded_supported_version_not_registered :
  let host := Scenario.host "0.60.4" (Some (Failure "EACCES")) DisposeReturns in
  let version :=
    reactNativeVersion
      (tryToGetRNSemverValidVersionsFromProjectPackage host
         (getReactNativeProjectRoot host (folder_uri Scenario.folder))) in
  isVersionError host version = false
  ∧ (@isSupportedVersion SemverRef.semver version initial_state).1 = Returned true
  ∧ projectsCache
      (@onFolderAdded SemverRef.semver host Scenario.folder initial_state).2
    = projectsCache initial_state.
Proof. vm_compute. done. Qed.

(** C4: the launcher's setup is awaited to completion before
    [ProjectsStorage.addFolder] is called: whenever [onFolderAdded] calls
    [addFolder], the setup has resolved and its completion is the event
    right before the call; if the setup rejects, [addFolder] is never called
    and the registry is unchanged.  The registry changes only through that
    call. *)
Theorem onFolderAdded_setup_before_registration `{Semver} (host : Host)
    (folder : WorkspaceFolder) (st : State) :
  let st' := (onFolderAdded host folder st).2 in
  ∃ evs,
    trace st' = (trace st ++ evs)%list
    ∧ (existsb is_AddFolder evs = true →
       setup host (folder_uri folder) = None
       ∧ ∃ before after,
           evs = (before
                  ++ [SetupCompleted (folder_uri folder);
                      AddFolder (getReactNativeProjectRoot host (folder_uri folder))]
                  ++ after)%list
           ∧ existsb is_AddFolder before = false)
    ∧ (setup host (folder_uri folder) ≠ None →
       projectsCache st' = projectsCache st ∧ existsb is_AddFolder evs = false)
    ∧ (existsb is_AddFolder evs = false → projectsCache st' = projectsCache st).
Proof.
  intros st'. subst st'.
  onFolderAdded_cases host folder st; simpl;
    (eexists; split; [reflexivity|]);
    simpl; rewrite ?existsb_app, ?activation_without_AddFolder; simpl.
  - split_and!; done.
  - split_and!; done.
  - split_and!; done.
  - split_and!; try done.
    intros _. split; [done|].
    eexists (_ :: _ :: _), _. split; [reflexivity|].
    simpl. apply activation_without_AddFolder.
  - split_and!; try done.
    intros _. split; [done|].
    eexists (_ :: _ :: _), []. split; [reflexivity|].
    simpl. apply activation_without_AddFolder.
Qed.

(** ** Removing a folder *)

Lemma getFolder_found folder st kv :
  ProjectsStorage.find_entry folder (projectsCache st) = Some kv →
  ProjectsStorage.getFolder folder st = (Returned kv.2, st).
Proof.
  intros Hfind. unfold ProjectsStorage.getFolder, bind, get_state.
  by rewrite Hfind.
Qed.

Lemma getFolder_missing folder st :
  ProjectsStorage.find_entry folder (projectsCache st) = None →
  ProjectsStorage.getFolder folder st
  = (Thrown (ProjectNotFound (folder_uri folder)
               (fst <$> map_to_list (projectsCache st))), st).
Proof.
  intros Hfind. unfold ProjectsStorage.getFolder, bind, get_state.
  by rewrite Hfind.
Qed.

(** No entry of the filtered registry belongs to the folder. *)
Lemma find_entry_filter folder (m : gmap string AppLauncher) :
  ProjectsStorage.find_entry folder
    (filter (λ kv, ¬ ProjectsStorage.stores_folder folder kv) m) = None.
Proof.
  unfold ProjectsStorage.find_entry.
  destruct (list_find _ _) as [[i kv]|] eqn:Hfind; [|done].
  apply list_find_Some in Hfind as (Hlook & Hstores & _).
  apply list_elem_of_lookup_2 in Hlook. destruct kv as [k l].
  apply elem_of_map_to_list, map_lookup_filter_Some in Hlook as [_ Hnot].
  done.
Qed.

Lemma keeps_cache_call_dispose r b : keeps same_cache (call_dispose r b).
Proof. destruct b; simpl; keeps_auto. Qed.

Lemma returns_dispose_launcher l : returns (ProjectsStorage.dispose_launcher l).
Proof.
  unfold ProjectsStorage.dispose_launcher.
  apply returns_forEach. intros [key [|r]]; simpl; [apply returns_ret|].
  destruct (res_dispose r); [|apply returns_ret].
  apply returns_try_catch. intros e. apply returns_emit.
Qed.

(** [delFolder] never throws, whatever the launcher's disposal does, and
    leaves exactly the entries of the other folders. *)
Lemma delFolder_evicts folder st :
  (ProjectsStorage.delFolder folder st).1 = Returned tt
  ∧ projectsCache (ProjectsStorage.delFolder folder st).2
    = filter (λ kv, ¬ ProjectsStorage.stores_folder folder kv) (projectsCache st).
Proof.
  unfold ProjectsStorage.delFolder, bind, emit, get_state. simpl.
  match goal with
  | |- context [forEach ?l ?f ?s] =>
      destruct (returns_forEach l f (λ kv, returns_dispose_launcher kv.2) s)
        as [[] Hd];
      destruct (forEach l f s) as [o st1]
  end.
  simpl in Hd. subst o. done.
Qed.

(** The disposal loop of [onFolderRemoved] runs through when every property
    disposes cleanly, and throws at the first one that does not. *)
Lemma dispose_properties_clean l st :
  forallb disposes_cleanly l = true →
  (forEach l dispose_property st).1 = Returned tt.
Proof.
  revert st. induction l as [|[key p] l IH]; intros st Hall; simpl in *; [done|].
  apply andb_true_iff in Hall as [Hp Hl].
  unfold bind.
  assert ((dispose_property (key, p) st).1 = Returned tt) as Hhead.
  { unfold dispose_property, disposes_cleanly in *. simpl in *.
    destruct p as [|r]; [done|]. by destruct (res_dispose r) as [[]|]. }
  destruct (dispose_property (key, p) st) as [o st1]. simpl in Hhead. subst o.
  by apply IH.
Qed.

Lemma dispose_properties_throw l st :
  forallb disposes_cleanly l = false →
  ∃ e, (forEach l dispose_property st).1 = Thrown e.
Proof.
  revert st. induction l as [|[key p] l IH]; intros st Hall; simpl in *; [done|].
  unfold bind.
  destruct (dispose_property (key, p) st) as [[[]|e] st1] eqn:Hhead;
    [|by exists e].
  apply IH. apply andb_false_iff in Hall as [Hp|Hl]; [|done].
  unfold dispose_property, disposes_cleanly in *. simpl in *.
  destruct p as [|r]; [done|]. by destruct (res_dispose r) as [[]|].
Qed.

Lemma keeps_cache_dispose_properties l :
  keeps same_cache (forEach l dispose_property).
Proof.
  unfold dispose_property. keeps_auto. apply keeps_cache_call_dispose.
Qed.

Lemma keeps_cache_splice :
  keeps same_cache
    (try_catch
       (st <- get_state ;;
        set_subscriptions
          (splice_disposed (length (subscriptions st)) 0 (subscriptions st)))
       (λ _, ret tt)).
Proof. keeps_auto. Qed.

Lemma returns_splice :
  returns
    (try_catch
       (st <- get_state ;;
        set_subscriptions
          (splice_disposed (length (subscriptions st)) 0 (subscriptions st)))
       (λ _, ret tt)).
Proof. apply returns_try_catch. intros _. apply returns_ret. Qed.

(** C1, as stated, fails: the folder was added under a host whose
    [ReactDirManager] throws on disposal; [onFolderRemoved] lets the
    exception escape, [ProjectsStorage.delFolder] is not reached (no
    [DelFolder] event, nothing logged) and the entry is still there. *)
Lemma onFolderRemoved_failed_teardown_keeps_entry :
  let st := Scenario.registered (DisposeThrows (Failure "watcher")) in
  onFolderRemoved Scenario.folder st = (Thrown (Failure "watcher"), st)
  ∧ ProjectsStorage.find_entry Scenario.folder (projectsCache st)
    = Some ("/work/app",
            launcher_of
              (Scenario.host "0.60.4" None (DisposeThrows (Failure "watcher")))
              Scenario.folder).
Proof. vm_compute. done. Qed.

Lemma onFolderRemoved_clean folder st kv :
  ProjectsStorage.find_entry folder (projectsCache st) = Some kv →
  forallb disposes_cleanly (Object_entries kv.2) = true →
  ∃ st', onFolderRemoved folder st = (Returned tt, st')
         ∧ projectsCache st'
           = filter (λ kv, ¬ ProjectsStorage.stores_folder folder kv)
               (projectsCache st).
Proof.
  intros Hfind Hclean. unfold onFolderRemoved. unfold bind at 1.
  rewrite (getFolder_found _ _ _ Hfind). unfold bind at 1.
  pose proof (keeps_cache_dispose_properties (Object_entries kv.2) st) as Hsame.
  unfold same_cache in Hsame.
  pose proof (dispose_properties_clean _ st Hclean) as Hloop.
  destruct (forEach (Object_entries kv.2) dispose_property st) as [o st1].
  simpl in Hloop, Hsame. subst o.
  unfold bind at 1, outputChannelLogger_debug. rewrite emit_add_events.
  unfold bind at 1.
  destruct (delFolder_evicts folder
              (add_events [LogDebug ("Delete project: " ++ folder_uri folder)] st1))
    as [Hdel Hcache].
  destruct (ProjectsStorage.delFolder folder _) as [o st2].
  simpl in Hdel, Hcache. subst o.
  destruct (returns_splice st2) as [[] Hsplice].
  pose proof (keeps_cache_splice st2) as Hkeep. unfold same_cache in Hkeep.
  destruct (try_catch _ _ st2) as [o st3]. simpl in *. subst o.
  exists st3. split; [done | congruence].
Qed.

Lemma onFolderRemoved_dirty folder st kv :
  ProjectsStorage.find_entry folder (projectsCache st) = Some kv →
  forallb disposes_cleanly (Object_entries kv.2) = false →
  ∃ e st', onFolderRemoved folder st = (Thrown e, st')
           ∧ projectsCache st' = projectsCache st.
Proof.
  intros Hfind Hdirty. unfold onFolderRemoved. unfold bind at 1.
  rewrite (getFolder_found _ _ _ Hfind). unfold bind at 1.
  pose proof (keeps_cache_dispose_properties (Object_entries kv.2) st) as Hsame.
  unfold same_cache in Hsame.
  destruct (dispose_properties_throw _ st Hdirty) as [e Hloop].
  destruct (forEach (Object_entries kv.2) dispose_property st) as [o st1].
  simpl in Hloop, Hsame. subst o. eauto.
Qed.

(** C1, as amended: for a folder with an entry in the registry,
    [onFolderRemoved] deletes the entry (it reaches
    [ProjectsStorage.delFolder] and returns) when the disposal of every own
    property of the launcher goes through; when one of them throws, the
    exception leaves [onFolderRemoved] and the registry is unchanged. *)
Theorem onFolderRemoved_evicts_after_clean_teardown (folder : WorkspaceFolder)
    (st : State) (kv : string * AppLauncher) :
  ProjectsStorage.find_entry folder (projectsCache st) = Some kv →
  (forallb disposes_cleanly (Object_entries kv.2) = true →
   (onFolderRemoved folder st).1 = Returned tt
   ∧ projectsCache (onFolderRemoved folder st).2
     = filter (λ kv, ¬ ProjectsStorage.stores_folder folder kv) (projectsCache st)
   ∧ ProjectsStorage.find_entry folder (projectsCache (onFolderRemoved folder st).2)
     = None)
  ∧ (forallb disposes_cleanly (Object_entries kv.2) = false →
     (∃ e, (onFolderRemoved folder st).1 = Thrown e)
     ∧ projectsCache (onFolderRemoved folder st).2 = projectsCache st).
Proof.
  intros Hfind. split.
  - intros Hclean.
    destruct (onFolderRemoved_clean _ _ _ Hfind Hclean) as (st' & -> & Hcache).
    simpl. split_and!; [done | done |]. rewrite Hcache. apply find_entry_filter.
  - intros Hdirty.
    destruct (onFolderRemoved_dirty _ _ _ Hfind Hdirty) as (e & st' & -> & Hcache).
    simpl. eauto.
Qed.

Lemma onFolderRemoved_evicts_after_clean_teardown_witness :
  let st := Scenario.registered DisposeReturns in
  ProjectsStorage.find_entry Scenario.folder (projectsCache st)
  = Some ("/work/app",
          launcher_of (Scenario.host "0.60.4" None DisposeReturns) Scenario.folder)
  ∧ (onFolderRemoved Scenario.folder st).1 = Returned tt
  ∧ ProjectsStorage.find_entry Scenario.folder
      (projectsCache (onFolderRemoved Scenario.folder st).2) = None.
Proof.
  assert (ProjectsStorage.find_entry Scenario.folder
            (projectsCache (Scenario.registered DisposeReturns))
          = Some ("/work/app",
                  launcher_of (Scenario.host "0.60.4" None DisposeReturns)
                    Scenario.folder)) as Hfind by (vm_compute; reflexivity).
  split; [exact Hfind|].
  destruct (onFolderRemoved_evicts_after_clean_teardown _ _ _ Hfind) as [Hclean _].
  destruct (Hclean eq_refl) as (Hret & _ & Hgone).
  split; [exact Hret | exact Hgone].
Defined.

(** C5, as stated, fails: removing a folder that was never added raises
    the registry's project-not-found condition. *)
Lemma onFolderRemoved_never_added_raises :
  onFolderRemoved Scenario.folder initial_state
  = (Thrown (ProjectNotFound "/work/app" []), initial_state).
Proof. vm_compute. reflexivity. Qed.

(** C5, as amended: removing a folder that has no entry in the registry
    leaves the registry, and the whole module state, unchanged, and the
    call raises the project-not-found condition of the registry's lookup,
    which [onFolderRemoved] does not catch. *)
Theorem onFolderRemoved_never_added (folder : WorkspaceFolder) (st : State) :
  ProjectsStorage.find_entry folder (projectsCache st) = None →
  onFolderRemoved folder st
  = (Thrown (ProjectNotFound (folder_uri folder)
               (fst <$> map_to_list (projectsCache st))), st).
Proof.
  intros Hfind. unfold onFolderRemoved. unfold bind at 1.
  by rewrite (getFolder_missing _ _ Hfind).
Qed.

Lemma onFolderRemoved_never_added_witness :
  ProjectsStorage.find_entry Scenario.folder (projectsCache initial_state) = None
  ∧ projectsCache (onFolderRemoved Scenario.folder initial_state).2
    = projectsCache initial_state.
Proof.
  split; [vm_compute; reflexivity|].
  rewrite (onFolderRemoved_never_added Scenario.folder initial_state);
    [reflexivity | vm_compute; reflexivity].
Defined.

(** ** The process executor *)

Section ProcessExecutor.

Import CommandExecutor.

Lemma classify_cannot_start commandLine reason :
  ∃ r, classify commandLine (CannotStart reason) = inl r
       ∧ errorCode r = 101%Z ∧ errorLevel r = Error.
Proof. eexists. simpl. split_and!; reflexivity. Qed.

Lemma classify_exit_nonzero commandLine code out err :
  code ≠ 0%Z →
  ∃ r, classify commandLine (Exited code out err) = inl r
       ∧ errorCode r = 101%Z ∧ errorLevel r = Error.
Proof.
  intros Hcode. simpl. destruct (Z.eqb_spec code 0); [done|].
  eexists. split_and!; reflexivity.
Qed.

Lemma render_not_empty a b c : render a b c ≠ "".
Proof. unfold render. by destruct (show a). Qed.

Lemma coerce_shaped s c : coerce s = Some c → c ≠ "" ∧ semver_shaped c.
Proof.
  unfold coerce. destruct (coerce_list _) as [[[a b] d]|]; [|done].
  simpl. intros [= <-]. split; [apply render_not_empty|].
  by exists a, b, d.
Qed.

(** *** Printing a number and reading it back *)

Lemma chars_digits d : forallb SemverRef.is_digit (chars d) = true.
Proof. unfold chars. induction d; simpl; by rewrite ?IHd. Qed.

Lemma digits_value_acc d acc :
  foldl (λ acc c, (10 * acc + (SemverRef.code c - 48))%N) (Npos acc) (chars d)
  = Npos (Pos.of_uint_acc d acc).
Proof.
  unfold chars. revert acc.
  induction d; intros acc; simpl; [done|..]; rewrite <- IHd; f_equal;
    unfold SemverRef.code; simpl; lia.
Qed.

Lemma digits_value_chars d : SemverRef.digits_value (chars d) = N.of_uint d.
Proof.
  unfold SemverRef.digits_value, N.of_uint.
  induction d; simpl; [done | exact IHd |..];
    unfold chars; simpl;
    match goal with
    | |- _ = Npos (Pos.of_uint_acc _ ?k) => apply (digits_value_acc d k)
    end.
Qed.

Lemma chars_nonempty n : chars (N.to_uint n) ≠ [].
Proof.
  destruct n as [|p]; [done|]. simpl.
  pose proof (DecimalPos.Unsigned.to_uint_nonnil p) as Hnil.
  unfold chars. by destruct (Pos.to_uint p).
Qed.

Lemma digits_value_show n :
  SemverRef.digits_value (chars (N.to_uint n)) = n.
Proof. rewrite digits_value_chars. apply DecimalN.Unsigned.of_to. Qed.

Lemma span_digits_app ds rest :
  forallb SemverRef.is_digit ds = true → stops rest →
  span_digits (ds ++ rest) = (ds, rest).
Proof.
  intros Hds Hrest. induction ds as [|c ds IH].
  - destruct rest as [|c rest]; [done|].
    cbn [app span_digits]. unfold stops in Hrest. by rewrite Hrest.
  - cbn [forallb] in Hds. apply andb_true_iff in Hds as [Hc Hds].
    cbn [app span_digits]. by rewrite Hc, IH.
Qed.

Lemma next_component_app ds rest :
  ds ≠ [] → forallb SemverRef.is_digit ds = true → stops rest →
  next_component ("."%char :: ds ++ rest) = Some (ds, rest).
Proof.
  intros Hne Hds Hrest. unfold next_component.
  change (SemverRef.code "." =? 46)%N with true. cbv iota.
  rewrite span_digits_app by done. by destruct ds.
Qed.

Lemma list_ascii_of_string_app s1 s2 :
  String.list_ascii_of_string (s1 ++ s2)
  = (String.list_ascii_of_string s1 ++ String.list_ascii_of_string s2)%list.
Proof. induction s1 as [|c s1 IH]; simpl; [done | by rewrite IH]. Qed.

Lemma coerce_list_chars a b c :
  coerce_list (chars (N.to_uint a)
               ++ "."%char :: chars (N.to_uint b)
               ++ "."%char :: chars (N.to_uint c))%list
  = Some (a, b, c).
Proof.
  pose proof (chars_nonempty a) as Ha.
  pose proof (chars_digits (N.to_uint a)) as Hda.
  pose proof (digits_value_show a) as Hva.
  destruct (chars (N.to_uint a)) as [|c0 ds]; [done|].
  cbn [forallb] in Hda. apply andb_true_iff in Hda as [Hc0 Hds].
  cbn [app coerce_list span_digits]. rewrite Hc0.
  rewrite (span_digits_app ds) by done.
  rewrite next_component_app; [| apply chars_nonempty | apply chars_digits | done].
  rewrite <- (app_nil_r (chars (N.to_uint c))).
  rewrite next_component_app; [| apply chars_nonempty | apply chars_digits | done].
  by rewrite Hva, !digits_value_show.
Qed.

(** Cleaning leaves a plain version as it is. *)
Lemma coerce_render a b c : coerce (render a b c) = Some (render a b c).
Proof.
  unfold coerce, render, show.
  rewrite !list_ascii_of_string_app. simpl String.list_ascii_of_string.
  fold (chars (N.to_uint a)) (chars (N.to_uint b)) (chars (N.to_uint c)).
  cbn [app]. by rewrite coerce_list_chars.
Qed.

Lemma first_version_shaped sources c :
  first_version sources = Some c → c ≠ "" ∧ semver_shaped c.
Proof.
  induction sources as [|source rest IH]; [done|]. simpl.
  destruct (source ≫= coerce) as [cleaned|] eqn:Hsource; [|done].
  intros [= <-]. destruct source as [v|]; [|done].
  by apply (coerce_shaped v).
Qed.

(** C6: the version probe answers the cleaned version of the installed
    manifest when the manifest has a version field: a plain version is
    returned as it is ("0.22.0" yields "0.22.0"), a range is cleaned down to
    its version (the "^0.22.0" of the test yields "0.22.0"), whatever the
    other package files hold.  When the manifest lacks the field the probe
    does not fail: it answers the version cleaned from the lock file, or
    else from the declared range ("0.22.2" for the range "^0.22.2" of the
    reference scenario).  In every case the answer is a non-empty string of
    three dotted numbers, a plain version that cleaning leaves as it is. *)
Theorem getReactNativeVersion_probe (guess : N * N * N) (p : PackageFiles) :
  let version := getReactNativeVersion guess p in
  (version ≠ "" ∧ semver_shaped version ∧ coerce version = Some version)
  ∧ (∀ v cleaned, manifest_version p = Some v → coerce v = Some cleaned →
       version = cleaned)
  ∧ (∀ a b c, manifest_version p = Some (render a b c) → version = render a b c)
  ∧ (manifest_version p = Some "0.22.0" → version = "0.22.0")
  ∧ (manifest_version p = Some "^0.22.0" → version = "0.22.0")
  ∧ (manifest_version p = None →
     (∀ l cleaned, lock_version p = Some l → coerce l = Some cleaned →
        version = cleaned)
     ∧ (∀ r cleaned, lock_version p ≫= coerce = None →
          declared_range p = Some r → coerce r = Some cleaned →
          version = cleaned)
     ∧ (lock_version p = None → declared_range p = Some "^0.22.2" →
        version = "0.22.2")).
Proof.
  intros version. subst version. unfold getReactNativeVersion.
  split_and!.
  - destruct (first_version _) as [c|] eqn:Hfirst; simpl.
    + by apply first_version_shaped in Hfirst as [? _].
    + apply render_not_empty.
  - destruct (first_version _) as [c|] eqn:Hfirst; simpl.
    + by apply first_version_shaped in Hfirst as [_ ?].
    + by eexists _, _, _.
  - destruct (first_version _) as [c|] eqn:Hfirst; simpl.
    + apply first_version_shaped in Hfirst as [_ (a & b & d & ->)].
      apply coerce_render.
    + apply coerce_render.
  - intros v cleaned -> Hv. simpl. by rewrite Hv.
  - intros a b c ->. simpl. by rewrite coerce_render.
  - by intros ->.
  - by intros ->.
  - intros ->. split_and!.
    + intros l cleaned -> Hl. simpl. by rewrite Hl.
    + intros r cleaned Hlock -> Hr. simpl in *. by rewrite Hlock, Hr.
    + by intros -> ->.
Qed.


(** C8: both failure modes of a command execution, a process that cannot
    be started and a process that exits non-zero, are reported to the
    caller as an error record with the command-failed code 101 at level
    [Error], by [execute] and by the completion signal of [spawn]. *)
Theorem failures_are_command_failed (env : Env) (command : string)
    (args : list string) :
  (∀ reason, run env command = CannotStart reason →
     ∃ r, execute env command = inl r
          ∧ errorCode r = 101%Z ∧ errorLevel r = Error)
  ∧ (∀ code out err, run env command = Exited code out err → code ≠ 0%Z →
     ∃ r, execute env command = inl r
          ∧ errorCode r = 101%Z ∧ errorLevel r = Error)
  ∧ (∀ reason, run env (command ++ join_args args) = CannotStart reason →
     ∃ r, outcome (spawn env command args) = inl r
          ∧ errorCode r = 101%Z ∧ errorLevel r = Error)
  ∧ (∀ code out err,
       run env (command ++ join_args args) = Exited code out err → code ≠ 0%Z →
       ∃ r, outcome (spawn env command args) = inl r
            ∧ errorCode r = 101%Z ∧ errorLevel r = Error).
Proof.
  unfold execute, spawn. simpl. split_and!.
  - intros reason ->. apply classify_cannot_start.
  - intros code out err -> Hcode. by apply classify_exit_nonzero.
  - intros reason ->. apply classify_cannot_start.
  - intros code out err -> Hcode. by apply classify_exit_nonzero.
Qed.

End ProcessExecutor.

(** ** The scenarios of the test suite and further runs *)

Example valid_0_22_0 : SemverRef.valid "0.22.0" = Some "0.22.0".
Proof. reflexivity. Qed.

Example valid_v_build :
  SemverRef.valid " v1.2.3-beta.1+exp.sha " = Some "1.2.3-beta.1".
Proof. reflexivity. Qed.

Example valid_custom : SemverRef.valid "0.2018.0107-v1" = None.
Proof. reflexivity. Qed.

Example valid_range : SemverRef.valid "^0.22.0" = None.
Proof. reflexivity. Qed.

Example gte_0_18 : SemverRef.gte "0.18.1" "0.19.0" = false.
Proof. reflexivity. Qed.

Example gte_0_19_prerelease : SemverRef.gte "0.19.0-rc.1" "0.19.0" = false.
Proof. reflexivity. Qed.

Example gte_0_60 : SemverRef.gte "0.60.4" "0.19.0" = true.
Proof. reflexivity. Qed.

(** The folder of the scenario is registered under a well-behaved host and
    is not when the setup of its launcher rejects. *)
Example registers_supported :
  @registers SemverRef.semver (Scenario.host "0.60.4" None DisposeReturns)
    Scenario.folder initial_state = true.
Proof. vm_compute. reflexivity. Qed.

Example registers_setup_rejects :
  @registers SemverRef.semver
    (Scenario.host "0.60.4" (Some (Failure "EACCES")) DisposeReturns)
    Scenario.folder initial_state = false.
Proof. vm_compute. reflexivity. Qed.

(** A second addition of the same folder is refused by the registry: the
    entry and the counter stay, the refusal is logged. *)
Example add_twice :
  let host := Scenario.host "0.60.4" None DisposeReturns in
  let once := Scenario.registered DisposeReturns in
  let twice := (@onFolderAdded SemverRef.semver host Scenario.folder once).2 in
  projectsCache twice = projectsCache once
  ∧ COUNT_WORKSPACE_FOLDERS twice = 9001%Z
  ∧ LogError DebuggerStubLauncherFailed (DuplicateProject "/work/app") ∈ trace twice.
Proof. vm_compute. split_and!; [done | done | set_solver]. Qed.

(** An old version is turned away with a warning, and nothing is
    registered. *)
Example unsupported_version_skipped :
  let st :=
    (@onFolderAdded SemverRef.semver
       (Scenario.host "0.18.1" None DisposeReturns) Scenario.folder initial_state).2 in
  projectsCache st = ∅
  ∧ COUNT_WORKSPACE_FOLDERS st = 9000%Z
  ∧ trace st
    = [LogDebug "Add project: /work/app";
       LogDebug "React Native version: 0.18.1";
       TelemetrySimpleEvent "unsupportedRNVersion" "0.18.1";
       ShowWarningMessage shortMessage;
       LogWarning (shortMessage ++ ": 0.18.1");
       LogDebug "react-native@0.18.1 isn't supported"].
Proof. vm_compute. done. Qed.

(** Adding a folder and removing it again: the manager is disposed, the
    entry is gone, the disposed subscription is dropped, and the counter
    stays where the addition left it. *)
Example add_then_remove :
  onFolderRemoved Scenario.folder (Scenario.registered DisposeReturns)
  = (Returned tt,
     {| projectsCache := ∅;
        COUNT_WORKSPACE_FOLDERS := 9001;
        subscriptions := [];
        trace :=
          [LogDebug "Add project: /work/app";
           LogDebug "React Native version: 0.60.4";
           SetupCompleted "/work/app";
           AddFolder "/work/app";
           Disposed "/work/app";
           LogDebug "Delete project: /work/app";
           DelFolder "/work/app";
           Disposed "/work/app"] |}).
Proof. vm_compute. reflexivity. Qed.

(** Two synthetic folders around the addition of a workspace folder. *)
Example indices_issued :
  let host := Scenario.host "0.60.4" None DisposeReturns in
  (@run_operations SemverRef.semver
     [(host, CreateAdditional "/work/extra");
      (host, CreateAdditional "/work/missing");
      (host, FolderAdded Scenario.folder);
      (host, FolderRemoved Scenario.folder);
      (host, CreateAdditional "/work/extra")] initial_state).2
  = [9001%Z; 9003%Z].
Proof. vm_compute. reflexivity. Qed.

(** [forEach] with [splice] skips the element that slides into the slot
    just visited. *)
Example splice_skips_neighbour :
  splice_disposed 3 0
    [{| sub_id := "a"; isDisposed := true |};
     {| sub_id := "b"; isDisposed := true |};
     {| sub_id := "c"; isDisposed := false |}]
  = [{| sub_id := "b"; isDisposed := true |};
     {| sub_id := "c"; isDisposed := false |}].
Proof. reflexivity. Qed.

(** The two tests of the probe: the manifest declares "^0.22.0"; the
    manifest has no version field and the project declares "^0.22.2". *)
Example probe_manifest_range :
  CommandExecutor.getReactNativeVersion (0, 0, 0)%N
    {| CommandExecutor.manifest_version := Some "^0.22.0";
       CommandExecutor.lock_version := None;
       CommandExecutor.declared_range := Some "^0.22.2" |}
  = "0.22.0".
Proof. reflexivity. Qed.

Example probe_without_version_field :
  CommandExecutor.getReactNativeVersion (0, 0, 0)%N
    {| CommandExecutor.manifest_version := None;
       CommandExecutor.lock_version := None;
       CommandExecutor.declared_range := Some "^0.22.2" |}
  = "0.22.2".
Proof. reflexivity. Qed.

(** A lock entry without a version number does not hide the declared
    range. *)
Example probe_skips_unusable_lock :
  CommandExecutor.getReactNativeVersion (0, 0, 0)%N
    {| CommandExecutor.manifest_version := None;
       CommandExecutor.lock_version := Some "github:facebook/react-native";
       CommandExecutor.declared_range := Some "~0.61" |}
  = "0.61.0".
Proof. reflexivity. Qed.

Example probe_result_is_semver : SemverRef.valid "0.22.2" = Some "0.22.2".
Proof. reflexivity. Qed.

(** The two tests of the resolution run in the sample project without
    [node_modules]: an empty global command name gives the project-local
    path, a configured one gives that name. *)
Example select_local_cli :
  CommandExecutor.selectReactNativeCLI
    (Scenario.executor (CommandExecutor.CannotStart "ENOENT") false "")
    "/test/resources/sampleReactNative022Project"
  = "/test/resources/sampleReactNative022Project/node_modules/.bin/react-native".
Proof. reflexivity. Qed.

Example select_global_cli :
  CommandExecutor.selectReactNativeCLI
    (Scenario.executor (CommandExecutor.CannotStart "ENOENT") false "a1b2c3")
    "/test/resources/sampleReactNative022Project"
  = "a1b2c3".
Proof. reflexivity. Qed.

(** An installed local binary is preferred to a configured name. *)
Example select_installed_cli :
  CommandExecutor.selectReactNativeCLI
    (Scenario.executor (CommandExecutor.CannotStart "ENOENT") true "a1b2c3")
    "/work/app"
  = "/work/app/node_modules/.bin/react-native".
Proof. reflexivity. Qed.

Example execute_bad_command :
  CommandExecutor.execute
    (Scenario.executor (CommandExecutor.CannotStart "ENOENT") false "") "bar"
  = inl {| CommandExecutor.errorCode := 101;
           CommandExecutor.errorLevel := CommandExecutor.Error;
           CommandExecutor.message :=
             "Error while executing command 'bar': ENOENT" |}.
Proof. reflexivity. Qed.

(** * Further properties *)

Local Open Scope nat_scope.
Local Open Scope list_scope.

(** ** The clean-up loop over the subscriptions *)

(** Past the end of the array the loop finds nothing to visit. *)
Lemma splice_disposed_beyond fuel index (l : list Subscription) :
  (length l ≤ index)%nat → splice_disposed fuel index l = l.
Proof.
  revert index. induction fuel as [|fuel IH]; intros index Hlen; simpl; [done|].
  rewrite (proj2 (lookup_ge_None l index) Hlen). apply IH. lia.
Qed.

Lemma filter_live_delete (l : list Subscription) index element :
  l !! index = Some element → isDisposed element = true →
  filter live (delete index l) = filter live l.
Proof.
  intros Hlook Hdisposed.
  trans (filter live (take index l ++ element :: drop (S index) l));
    [| by rewrite take_drop_middle].
  rewrite delete_take_drop, !filter_app, filter_cons.
  destruct (decide (live element)) as [Hlive|]; [|done].
  unfold live in Hlive. congruence.
Qed.

Lemma splice_disposed_spares_live fuel index (l : list Subscription) :
  filter live (splice_disposed fuel index l) = filter live l
  ∧ splice_disposed fuel index l `sublist_of` l.
Proof.
  revert index l. induction fuel as [|fuel IH]; intros index l; simpl; [done|].
  destruct (l !! index) as [element|] eqn:Hlook; [|apply IH].
  destruct (isDisposed element) eqn:Hdisposed; [|apply IH].
  destruct (IH (S index) (delete index l)) as [Hfilter Hsub]. split.
  - rewrite Hfilter. by eapply filter_live_delete.
  - etrans; [exact Hsub | apply sublist_delete].
Qed.

(** The loop with the elements before [index] behind it: a disposed element
    is spliced out, and the element that slides into its slot is skipped. *)
Lemma splice_disposed_isolated fuel (visited rest : list Subscription) :
  (length rest ≤ fuel)%nat →
  no_adjacent_disposed rest = true →
  splice_disposed fuel (length visited) (visited ++ rest)
  = visited ++ filter live rest.
Proof.
  revert visited rest.
  induction fuel as [|fuel IH]; intros visited rest Hfuel Hadj.
  { destruct rest; [|simpl in Hfuel; lia]. done. }
  destruct rest as [|element rest].
  { rewrite filter_nil, !app_nil_r. apply splice_disposed_beyond. lia. }
  simpl splice_disposed. rewrite list_lookup_middle by done.
  simpl in Hfuel. rewrite filter_cons.
  destruct (isDisposed element) eqn:Hdisposed.
  - rewrite delete_middle.
    destruct (decide (live element)) as [Hlive|_];
      [unfold live in Hlive; congruence|].
    destruct rest as [|next rest].
    { rewrite filter_nil, !app_nil_r. apply splice_disposed_beyond. lia. }
    simpl in Hadj. rewrite Hdisposed in Hadj. simpl in Hadj.
    apply andb_true_iff in Hadj as [Hnext Hadj].
    apply negb_true_iff in Hnext.
    replace (S (length visited)) with (length (visited ++ [next]))
      by (rewrite length_app; simpl; lia).
    replace (visited ++ next :: rest) with ((visited ++ [next]) ++ rest)
      by (by rewrite <- app_assoc).
    rewrite IH.
    + rewrite filter_cons. rewrite decide_True by done. by rewrite <- app_assoc.
    + simpl in Hfuel. lia.
    + destruct rest as [|third rest]; [done|]. simpl in Hadj |- *.
      apply andb_true_iff in Hadj as [_ Hadj]. done.
  - destruct (decide (live element)) as [_|Hdead];
      [|unfold live in Hdead; congruence].
    replace (S (length visited)) with (length (visited ++ [element]))
      by (rewrite length_app; simpl; lia).
    replace (visited ++ element :: rest) with ((visited ++ [element]) ++ rest)
      by (by rewrite <- app_assoc).
    rewrite IH.
    + by rewrite <- app_assoc.
    + lia.
    + destruct rest as [|next rest]; [done|]. simpl in Hadj.
      apply andb_true_iff in Hadj as [_ Hadj]. done.
Qed.

(** What lies before the loop's index is never touched again. *)
Lemma splice_disposed_behind fuel index (visited rest : list Subscription) :
  (length visited ≤ index)%nat →
  ∃ rest', splice_disposed fuel index (visited ++ rest) = visited ++ rest'.
Proof.
  revert index rest. induction fuel as [|fuel IH]; intros index rest Hlen; simpl.
  { by exists rest. }
  destruct ((visited ++ rest) !! index) as [element|] eqn:Hlook;
    [|apply IH; lia].
  destruct (isDisposed element); [|apply IH; lia].
  rewrite delete_take_drop.
  rewrite take_app_ge, drop_app_ge by lia.
  rewrite <- app_assoc. apply IH. lia.
Qed.

(** X1: the clean-up loop of [onFolderRemoved] never drops a subscription
    that is not disposed: the live subscriptions of the array are the same
    before and after, in the same order, and what is left is a sublist of
    what was there. *)
Theorem splice_disposed_keeps_live (l : list Subscription) :
  filter live (splice_disposed (length l) 0 l) = filter live l
  ∧ splice_disposed (length l) 0 l `sublist_of` l.
Proof. apply splice_disposed_spares_live. Qed.

(** X2: when no two neighbouring subscriptions are both disposed, the
    clean-up loop removes exactly the disposed ones. *)
Theorem splice_disposed_removes_isolated (l : list Subscription) :
  no_adjacent_disposed l = true →
  splice_disposed (length l) 0 l = filter live l.
Proof.
  intros Hadj. apply (splice_disposed_isolated (length l) [] l); [lia | done].
Qed.

Lemma splice_disposed_removes_isolated_witness :
  let l := [{| sub_id := "a"; isDisposed := true |};
            {| sub_id := "b"; isDisposed := false |};
            {| sub_id := "c"; isDisposed := true |}] in
  no_adjacent_disposed l = true
  ∧ splice_disposed (length l) 0 l = [{| sub_id := "b"; isDisposed := false |}].
Proof.
  split; [reflexivity|].
  apply (splice_disposed_removes_isolated
           [{| sub_id := "a"; isDisposed := true |};
            {| sub_id := "b"; isDisposed := false |};
            {| sub_id := "c"; isDisposed := true |}]).
  reflexivity.
Defined.

(** Over elements that are not disposed the loop only moves its index. *)
Lemma splice_disposed_live_prefix (pre visited rest : list Subscription) fuel :
  Forall live pre →
  splice_disposed (length pre + fuel) (length visited) (visited ++ pre ++ rest)
  = splice_disposed fuel (length visited + length pre) (visited ++ pre ++ rest).
Proof.
  revert visited. induction pre as [|x pre IH]; intros visited Hlive.
  { simpl. by rewrite Nat.add_0_r. }
  apply Forall_cons in Hlive as [Hx Hpre]. unfold live in Hx.
  simpl. rewrite list_lookup_middle by done. rewrite Hx.
  replace (S (length visited)) with (length (visited ++ [x]))
    by (rewrite length_app; simpl; lia).
  replace (visited ++ x :: pre ++ rest) with ((visited ++ [x]) ++ pre ++ rest)
    by (by rewrite <- app_assoc).
  rewrite IH by done. f_equal. rewrite length_app. simpl. lia.
Qed.

(** X3: the clean-up loop does not remove every disposed subscription: of
    two disposed neighbours that follow subscriptions which are all live,
    the first is spliced out and the second, which slides into the slot
    just visited, stays in the array. *)
Theorem splice_disposed_leaves_neighbour (pre rest : list Subscription)
    (a b : Subscription) :
  Forall live pre → isDisposed a = true → isDisposed b = true →
  ∃ rest',
    splice_disposed (length (pre ++ a :: b :: rest)) 0 (pre ++ a :: b :: rest)
    = pre ++ b :: rest'.
Proof.
  intros Hpre Ha Hb.
  rewrite length_app.
  rewrite (splice_disposed_live_prefix pre [] (a :: b :: rest)) by done.
  simpl. rewrite list_lookup_middle by done. rewrite Ha, delete_middle.
  destruct (splice_disposed_behind (S (length rest)) (S (length pre))
              (pre ++ [b]) rest) as [rest' Hrest].
  { rewrite length_app. simpl. lia. }
  rewrite <- app_assoc in Hrest. simpl in Hrest.
  exists rest'. rewrite Hrest. by rewrite <- app_assoc.
Qed.

Lemma splice_disposed_leaves_neighbour_witness :
  let keep := {| sub_id := "keep"; isDisposed := false |} in
  let a := {| sub_id := "a"; isDisposed := true |} in
  let b := {| sub_id := "b"; isDisposed := true |} in
  Forall live [keep]
  ∧ ∃ rest', splice_disposed 3 0 [keep; a; b] = [keep; b] ++ rest'.
Proof.
  split; [by repeat constructor|].
  apply (splice_disposed_leaves_neighbour
           [{| sub_id := "keep"; isDisposed := false |}] []
           {| sub_id := "a"; isDisposed := true |}
           {| sub_id := "b"; isDisposed := true |});
    [by repeat constructor | reflexivity | reflexivity].
Defined.

(** ** What [onFolderAdded] leaves behind *)

(** X4: [onFolderAdded] moves the counter up by exactly one when it
    registers a launcher, and leaves it alone on every other path (failed
    detection, unsupported version, rejected setup, refused registration). *)
Theorem onFolderAdded_counts_registrations `{Semver} (host : Host)
    (folder : WorkspaceFolder) (st : State) :
  COUNT_WORKSPACE_FOLDERS (onFolderAdded host folder st).2
  = (COUNT_WORKSPACE_FOLDERS st + (if registers host folder st then 1 else 0))%Z.
Proof.
  unfold registers.
  onFolderAdded_cases host folder st; simpl; lia.
Qed.

(** X5: [setupAndDispose] pushes the [ReactDirManager] to the extension's
    subscriptions exactly when the version was detected, passes the gate
    and the manager's setup resolved; it then stays subscribed even if the
    registration that follows is refused.  On every other path the
    subscriptions are as before. *)
Theorem onFolderAdded_subscribes_after_setup `{Semver} (host : Host)
    (folder : WorkspaceFolder) (st : State) :
  let version :=
    reactNativeVersion
      (tryToGetRNSemverValidVersionsFromProjectPackage host
         (getReactNativeProjectRoot host (folder_uri folder))) in
  subscriptions (onFolderAdded host folder st).2
  = if negb (isVersionError host version) && negb (below_minimum version)
       && bool_decide (setup host (folder_uri folder) = None)
    then subscriptions st ++ [{| sub_id := folder_uri folder; isDisposed := false |}]
    else subscriptions st.
Proof.
  intros version. subst version.
  onFolderAdded_cases host folder st; simpl; done.
Qed.

Lemma activation_events_windows host versions :
  SetContext "IS_RN_WINDOWS_PROJECT" ∈ activation_events host versions
  ↔ isVersionError host (reactNativeWindowsVersion versions) = false.
Proof.
  unfold activation_events.
  destruct (isVersionError host (reactNativeWindowsVersion versions)),
    (isVersionError host (reactNativeMacOSVersion versions)); simpl;
    rewrite ?elem_of_cons, ?elem_of_nil; intuition congruence.
Qed.

Lemma activation_events_macos host versions :
  SetContext "IS_RN_MACOS_PROJECT" ∈ activation_events host versions
  ↔ isVersionError host (reactNativeMacOSVersion versions) = false.
Proof.
  unfold activation_events.
  destruct (isVersionError host (reactNativeWindowsVersion versions)),
    (isVersionError host (reactNativeMacOSVersion versions)); simpl;
    rewrite ?elem_of_cons, ?elem_of_nil; intuition congruence.
Qed.

(** X6: [onFolderAdded] sets the context flag of a platform (Windows,
    macOS) exactly when the react-native version was detected and passes
    the gate and the version of that platform's package is not a version
    error, whatever the launcher's setup and the registration then do. *)
Theorem onFolderAdded_context_flags `{Semver} (host : Host)
    (folder : WorkspaceFolder) (st : State) :
  let versions :=
    tryToGetRNSemverValidVersionsFromProjectPackage host
      (getReactNativeProjectRoot host (folder_uri folder)) in
  let supported :=
    isVersionError host (reactNativeVersion versions) = false
    ∧ below_minimum (reactNativeVersion versions) = false in
  ∃ evs,
    trace (onFolderAdded host folder st).2 = trace st ++ evs
    ∧ (SetContext "IS_RN_WINDOWS_PROJECT" ∈ evs
       ↔ supported
         ∧ isVersionError host (reactNativeWindowsVersion versions) = false)
    ∧ (SetContext "IS_RN_MACOS_PROJECT" ∈ evs
       ↔ supported
         ∧ isVersionError host (reactNativeMacOSVersion versions) = false).
Proof.
  intros versions supported. subst versions supported.
  onFolderAdded_cases host folder st; simpl;
    (eexists; split; [reflexivity|]);
    rewrite ?elem_of_cons, ?elem_of_app, ?elem_of_cons, ?elem_of_nil,
      ?activation_events_windows, ?activation_events_macos;
    intuition congruence.
Qed.

(** ** What [onFolderRemoved] leaves behind *)

#[global] Instance same_counter_preorder : PreOrder same_counter.
Proof.
  split; [by intros st | intros a b c Hab Hbc].
  unfold same_counter in *. congruence.
Qed.

(** Walks through a computation like [keeps_auto], for a relation that the
    elementary state changes respect by computation. *)
Ltac keeps_walk :=
  repeat match goal with
    | |- keeps ?R (ret _) => apply (keeps_ret R)
    | |- keeps ?R (throw _) => apply (keeps_throw R)
    | |- keeps ?R get_state => apply (keeps_get_state R)
    | |- keeps ?R (bind _ _) => apply (keeps_bind R); [| intros ?]
    | |- keeps ?R (try_catch _ _) => apply (keeps_try_catch R); [| intros ?]
    | |- keeps ?R (forEach _ _) => apply (keeps_forEach R); intros ?
    | |- keeps _ (match ?x with _ => _ end) => destruct x
    | |- keeps _ (emit _) => by intros ?
    | |- keeps _ (set_subscriptions _) => by intros ?
    | |- keeps _ (set_projectsCache _) => by intros ?
    end.

Lemma keeps_same_counter_onFolderRemoved folder :
  keeps same_counter (onFolderRemoved folder).
Proof.
  unfold onFolderRemoved, ProjectsStorage.getFolder, ProjectsStorage.delFolder,
    ProjectsStorage.dispose_launcher, dispose_property,
    outputChannelLogger_debug, call_dispose.
  keeps_walk.
Qed.

Lemma find_entry_Some folder (m : gmap string AppLauncher) kv :
  ProjectsStorage.find_entry folder m = Some kv →
  m !! kv.1 = Some kv.2 ∧ ProjectsStorage.stores_folder folder kv.
Proof.
  unfold ProjectsStorage.find_entry.
  destruct (list_find _ _) as [[i kv']|] eqn:Hfind; [|done].
  simpl. intros [= ->].
  apply list_find_Some in Hfind as (Hlook & Hstores & _).
  apply list_elem_of_lookup_2 in Hlook. destruct kv as [k l].
  by apply elem_of_map_to_list in Hlook.
Qed.

Lemma find_entry_None folder (m : gmap string AppLauncher) :
  ProjectsStorage.find_entry folder m = None
  ↔ ∀ k l, m !! k = Some l →
           folder_uri (workspaceFolder l) ≠ folder_uri folder.
Proof.
  unfold ProjectsStorage.find_entry. rewrite fmap_None, list_find_None.
  rewrite Forall_forall. split.
  - intros Hall k l Hlook. apply (Hall (k, l)). by apply elem_of_map_to_list.
  - intros Hnone [k l] Hin. apply elem_of_map_to_list in Hin.
    by apply (Hnone k l).
Qed.

(** The registry after [onFolderRemoved] is the one before, or the one
    before without the entries of the folder. *)
Lemma onFolderRemoved_cache folder st :
  projectsCache (onFolderRemoved folder st).2 = projectsCache st
  ∨ projectsCache (onFolderRemoved folder st).2
    = filter (λ kv, ¬ ProjectsStorage.stores_folder folder kv) (projectsCache st).
Proof.
  destruct (ProjectsStorage.find_entry folder (projectsCache st)) as [kv|] eqn:Hfind.
  - destruct (forallb disposes_cleanly (Object_entries kv.2)) eqn:Hclean.
    + destruct (onFolderRemoved_clean _ _ _ Hfind Hclean) as (st' & -> & Hcache).
      by right.
    + destruct (onFolderRemoved_dirty _ _ _ Hfind Hclean) as (e & st' & -> & Hcache).
      by left.
  - left. unfold onFolderRemoved. unfold bind at 1.
    by rewrite (getFolder_missing _ _ Hfind).
Qed.

(** X7: [onFolderRemoved] touches nothing but the entries of the folder it
    is called with: whether it returns or throws, it adds no entry and
    changes none, every entry of another folder is still there, and the
    counter keeps its value (an index is never given back). *)
Theorem onFolderRemoved_spares_other_folders (folder : WorkspaceFolder) (st : State) :
  let st' := (onFolderRemoved folder st).2 in
  (∀ k l, projectsCache st' !! k = Some l → projectsCache st !! k = Some l)
  ∧ (∀ k l, projectsCache st !! k = Some l →
            folder_uri (workspaceFolder l) ≠ folder_uri folder →
            projectsCache st' !! k = Some l)
  ∧ COUNT_WORKSPACE_FOLDERS st' = COUNT_WORKSPACE_FOLDERS st.
Proof.
  intros st'. subst st'. split_and!.
  - intros k l. destruct (onFolderRemoved_cache folder st) as [-> | ->]; [done|].
    apply map_lookup_filter_Some_1_1.
  - intros k l Hlook Hother.
    destruct (onFolderRemoved_cache folder st) as [-> | ->]; [done|].
    by apply map_lookup_filter_Some_2.
  - apply keeps_same_counter_onFolderRemoved.
Qed.

(** X8: removing a folder undoes its registration, whatever the launcher
    owns.  When [ProjectsStorage.addFolder] stores a launcher of the folder
    under a free project root, in a registry without an entry of the folder,
    and the disposal of every own property of the launcher goes through in
    the loop of [onFolderRemoved] (none is [null] or [undefined], no
    [dispose] throws), then [onFolderRemoved] returns and the registry is
    the one from before the registration; the counter is not touched. *)
Theorem add_then_remove_restores_registry (folder : WorkspaceFolder)
    (projectRootPath : string) (appLauncher : AppLauncher) (st : State) :
  projectsCache st !! projectRootPath = None →
  ProjectsStorage.find_entry folder (projectsCache st) = None →
  folder_uri (workspaceFolder appLauncher) = folder_uri folder →
  forallb disposes_cleanly (Object_entries appLauncher) = true →
  let st1 := (ProjectsStorage.addFolder projectRootPath appLauncher st).2 in
  projectsCache st1 !! projectRootPath = Some appLauncher
  ∧ (onFolderRemoved folder st1).1 = Returned tt
  ∧ projectsCache (onFolderRemoved folder st1).2 = projectsCache st
  ∧ COUNT_WORKSPACE_FOLDERS (onFolderRemoved folder st1).2
    = COUNT_WORKSPACE_FOLDERS st.
Proof.
  intros Hfree Hnone Hfolder Hclean st1.
  pose proof (keeps_same_counter_onFolderRemoved folder st1) as Hcount.
  unfold same_counter in Hcount. rewrite Hcount. clear Hcount.
  subst st1. unfold ProjectsStorage.addFolder, bind, emit, get_state.
  simpl. rewrite Hfree. simpl.
  set (st1 := {| projectsCache := <[projectRootPath := appLauncher]> (projectsCache st) |}).
  split; [apply lookup_insert_eq|].
  assert (is_Some (ProjectsStorage.find_entry folder (projectsCache st1)))
    as [kv Hfind].
  { destruct (ProjectsStorage.find_entry folder (projectsCache st1)) eqn:Hf;
      [by eexists|].
    rewrite find_entry_None in Hf.
    exfalso. apply (Hf projectRootPath appLauncher); [|done].
    apply lookup_insert_eq. }
  destruct (find_entry_Some _ _ _ Hfind) as [Hlook Hstores].
  assert (kv.2 = appLauncher) as Hkv.
  { simpl in Hlook. apply lookup_insert_Some in Hlook as [[_ Heq]|[_ Hold]];
      [done|].
    rewrite find_entry_None in Hnone. by apply Hnone in Hold. }
  destruct (onFolderRemoved_clean folder st1 kv Hfind) as (st2 & -> & Hcache).
  { by rewrite Hkv. }
  simpl. split_and!; [done | | done].
  rewrite Hcache. simpl.
  rewrite map_filter_insert_not'.
  - apply map_filter_id. intros k l Hl Hs.
    rewrite find_entry_None in Hnone. by apply (Hnone k l).
  - intros Hnot. by apply Hnot.
  - intros y Hy. congruence.
Qed.

Lemma add_then_remove_restores_registry_witness :
  let packager := {| res_id := "packager"; res_dispose := Some DisposeReturns |} in
  let appLauncher :=
    {| reactDirManager := {| res_id := "/work/app";
                             res_dispose := Some DisposeReturns |};
       workspaceFolder := Scenario.folder;
       owned := [("packager", PObject packager);
                 ("appWorkspace", PObject {| res_id := "workspace";
                                             res_dispose := None |})] |} in
  forallb disposes_cleanly (Object_entries appLauncher) = true
  ∧ projectsCache
      (onFolderRemoved Scenario.folder
         (ProjectsStorage.addFolder "/work/app" appLauncher initial_state).2).2
    = projectsCache initial_state.
Proof.
  split; [reflexivity|].
  apply (add_then_remove_restores_registry Scenario.folder "/work/app"
           {| reactDirManager := {| res_id := "/work/app";
                                    res_dispose := Some DisposeReturns |};
              workspaceFolder := Scenario.folder;
              owned := [("packager",
                         PObject {| res_id := "packager";
                                    res_dispose := Some DisposeReturns |});
                        ("appWorkspace",
                         PObject {| res_id := "workspace";
                                    res_dispose := None |})] |}
           initial_state);
    vm_compute; reflexivity.
Defined.

(** ** A change of several workspace folders *)

#[global] Instance registry_shrinks_preorder : PreOrder registry_shrinks.
Proof.
  split; [by intros st k l | intros a b c Hab Hbc k l Hl].
  by apply Hab, Hbc.
Qed.

Lemma keeps_shrinks_onFolderRemoved folder :
  keeps registry_shrinks (onFolderRemoved folder).
Proof.
  intros st k l.
  destruct (onFolderRemoved_cache folder st) as [-> | ->]; [done|].
  apply map_lookup_filter_Some_1_1.
Qed.

Lemma onFolderRemoved_missing folder st :
  ProjectsStorage.find_entry folder (projectsCache st) = None →
  ∃ e, onFolderRemoved folder st = (Thrown e, st).
Proof.
  intros Hfind. unfold onFolderRemoved. unfold bind at 1.
  rewrite (getFolder_missing _ _ Hfind). by eexists.
Qed.

(** The removals of a change event stop at the first folder the registry
    does not know. *)
Lemma removals_throw (removed : list WorkspaceFolder) folder st :
  folder ∈ removed →
  ProjectsStorage.find_entry folder (projectsCache st) = None →
  ∃ e, (forEach removed onFolderRemoved st).1 = Thrown e.
Proof.
  revert st. induction removed as [|first removed IH]; intros st Hin Hnone.
  { by apply elem_of_nil in Hin. }
  simpl. unfold bind.
  pose proof (keeps_shrinks_onFolderRemoved first st) as Hshrink.
  destruct (onFolderRemoved first st) as [[[]|e] st1] eqn:Hfirst;
    [|by exists e].
  apply elem_of_cons in Hin as [->|Hin].
  - destruct (onFolderRemoved_missing first st Hnone) as [e He]. congruence.
  - apply IH; [done|]. simpl in Hshrink.
    rewrite find_entry_None in Hnone |- *.
    intros k l Hl. apply (Hnone k l). by apply Hshrink.
Qed.

(** X9: a change event that removes a folder without an entry in the
    registry (one that was skipped when it was added, say) is cut short by
    the exception of [onFolderRemoved]: [onChangeWorkspaceFolders] throws,
    none of the added folders of the event is processed, so no entry is
    added to the registry and the counter stays. *)
Theorem onChangeWorkspaceFolders_unknown_removal_aborts `{Semver} (host : Host)
    (removed added : list WorkspaceFolder) (folder : WorkspaceFolder) (st : State) :
  folder ∈ removed →
  ProjectsStorage.find_entry folder (projectsCache st) = None →
  let result := onChangeWorkspaceFolders host removed added st in
  (∃ e, result.1 = Thrown e)
  ∧ registry_shrinks st result.2
  ∧ COUNT_WORKSPACE_FOLDERS result.2 = COUNT_WORKSPACE_FOLDERS st.
Proof.
  intros Hin Hnone result. subst result. unfold onChangeWorkspaceFolders, bind.
  destruct (removals_throw removed folder st Hin Hnone) as [e He].
  pose proof (keeps_forEach registry_shrinks removed onFolderRemoved
                keeps_shrinks_onFolderRemoved st) as Hshrink.
  pose proof (keeps_forEach same_counter removed onFolderRemoved
                keeps_same_counter_onFolderRemoved st) as Hcount.
  destruct (forEach removed onFolderRemoved st) as [o st1].
  simpl in He. subst o. simpl. eauto.
Qed.

Lemma onChangeWorkspaceFolders_unknown_removal_aborts_witness :
  let host := Scenario.host "0.60.4" None DisposeReturns in
  Scenario.folder ∈ [Scenario.folder]
  ∧ projectsCache
      (@onChangeWorkspaceFolders SemverRef.semver host
         [Scenario.folder] [Scenario.folder] initial_state).2 = ∅.
Proof.
  split; [apply list_elem_of_here|].
  destruct (@onChangeWorkspaceFolders_unknown_removal_aborts SemverRef.semver
             (Scenario.host "0.60.4" None DisposeReturns)
             [Scenario.folder] [Scenario.folder] Scenario.folder initial_state)
    as (_ & Hshrink & _);
    [apply list_elem_of_here | vm_compute; reflexivity |].
  apply map_empty. intros k.
  destruct (projectsCache _ !! k) as [l|] eqn:Hl; [|done].
  by apply Hshrink in Hl.
Defined.

(** ** One launcher per folder *)

Lemma stays_well_keyed_preorder root_of : PreOrder (stays_well_keyed root_of).
Proof.
  split; [intros st Hst; exact Hst | intros a b c Hab Hbc Ha].
  by apply Hbc, Hab.
Qed.

Lemma shrinks_stays_well_keyed root_of st st' :
  registry_shrinks st st' → stays_well_keyed root_of st st'.
Proof. intros Hshrink Hkeyed k l Hl. by apply Hkeyed, Hshrink. Qed.

Lemma same_cache_stays_well_keyed root_of st st' :
  projectsCache st' = projectsCache st → stays_well_keyed root_of st st'.
Proof. intros Heq Hkeyed k l Hl. apply Hkeyed. by rewrite <- Heq. Qed.

Lemma keeps_well_keyed_onFolderAdded `{Semver} host folder root_of :
  (∀ p, getReactNativeProjectRoot host p = root_of p) →
  keeps (stays_well_keyed root_of) (onFolderAdded host folder).
Proof.
  intros Hroot st.
  onFolderAdded_cases host folder st; simpl;
    try (by apply same_cache_stays_well_keyed).
  intros Hkeyed k l Hl. simpl in Hl.
  apply lookup_insert_Some in Hl as [[<- <-]|[_ Hl]]; [|by apply Hkeyed].
  by rewrite Hroot.
Qed.

Lemma keeps_well_keyed_onFolderRemoved folder root_of :
  keeps (stays_well_keyed root_of) (onFolderRemoved folder).
Proof.
  intros st. apply shrinks_stays_well_keyed, keeps_shrinks_onFolderRemoved.
Qed.

Lemma step_well_keyed `{Semver} op root_of st :
  (∀ p, getReactNativeProjectRoot op.1 p = root_of p) →
  well_keyed root_of st → well_keyed root_of (step op st).1.
Proof.
  intros Hroot. pose proof (stays_well_keyed_preorder root_of) as Hpre.
  unfold step. destruct op as [host [folder|folder|removed added|folderPath]];
    simpl in *.
  - by apply keeps_well_keyed_onFolderAdded.
  - apply keeps_well_keyed_onFolderRemoved.
  - unfold onChangeWorkspaceFolders.
    apply (keeps_bind (stays_well_keyed root_of)).
    + apply (keeps_forEach (stays_well_keyed root_of)). intros folder.
      apply keeps_well_keyed_onFolderRemoved.
    + intros _. apply (keeps_forEach (stays_well_keyed root_of)). intros folder.
      apply (keeps_try_catch (stays_well_keyed root_of)).
      * by apply keeps_well_keyed_onFolderAdded.
      * intros _. apply (keeps_ret (stays_well_keyed root_of)).
  - pose proof (createAdditionalWorkspaceFolder_counter host folderPath st) as Hc.
    assert (projectsCache (createAdditionalWorkspaceFolder host folderPath st).2
            = projectsCache st) as Hcache.
    { unfold createAdditionalWorkspaceFolder.
      by destruct (existsSync host folderPath). }
    destruct (createAdditionalWorkspaceFolder host folderPath st)
      as [[[newFolder|]|e] st']; simpl in *;
      by apply same_cache_stays_well_keyed.
Qed.

Lemma run_operations_well_keyed `{Semver} ops root_of st :
  Forall (λ op : Host * Operation,
            ∀ p, getReactNativeProjectRoot op.1 p = root_of p) ops →
  well_keyed root_of st → well_keyed root_of (run_operations ops st).1.
Proof.
  revert st. induction ops as [|op ops IH]; intros st Hroots Hkeyed; [done|].
  apply Forall_cons in Hroots as [Hroot Hroots]. simpl.
  pose proof (step_well_keyed op root_of st Hroot Hkeyed) as Hstep.
  destruct (step op st) as [st1 issued]. simpl in Hstep.
  specialize (IH st1 Hroots Hstep).
  destruct (run_operations ops st1) as [st2 later]. done.
Qed.

(** X10: the registry holds at most one launcher per folder.  After any
    sequence of operations run under one setting of the project root, two
    entries whose launchers hold folders of the same path are one and the
    same entry, stored under the project root of that path. *)
Theorem one_launcher_per_folder `{Semver} (ops : list (Host * Operation))
    (root_of : string → string) :
  Forall (λ op : Host * Operation,
            ∀ p, getReactNativeProjectRoot op.1 p = root_of p) ops →
  let registry := projectsCache (run_operations ops initial_state).1 in
  ∀ k1 l1 k2 l2,
    registry !! k1 = Some l1 → registry !! k2 = Some l2 →
    folder_uri (workspaceFolder l1) = folder_uri (workspaceFolder l2) →
    k1 = root_of (folder_uri (workspaceFolder l1)) ∧ k1 = k2 ∧ l1 = l2.
Proof.
  intros Hroots registry k1 l1 k2 l2 H1 H2 Hsame. subst registry.
  assert (well_keyed root_of (run_operations ops initial_state).1) as Hkeyed.
  { apply run_operations_well_keyed; [done|]. intros k l Hl. simpl in Hl.
    by rewrite lookup_empty in Hl. }
  pose proof (Hkeyed k1 l1 H1) as Hk1. pose proof (Hkeyed k2 l2 H2) as Hk2.
  assert (k1 = k2) as <- by congruence.
  split_and!; [done | done | congruence].
Qed.

Lemma one_launcher_per_folder_witness :
  let host := Scenario.host "0.60.4" None DisposeReturns in
  let ops := [(host, FolderAdded Scenario.folder);
              (host, FolderAdded Scenario.folder)] in
  let registry := projectsCache (@run_operations SemverRef.semver ops initial_state).1 in
  Forall (λ op : Host * Operation, ∀ p, getReactNativeProjectRoot op.1 p = p) ops
  ∧ registry !! "/work/app" = Some (launcher_of host Scenario.folder)
  ∧ "/work/app" = folder_uri (workspaceFolder (launcher_of host Scenario.folder)).
Proof.
  assert (Forall (λ op : Host * Operation,
                    ∀ p, getReactNativeProjectRoot op.1 p = p)
            [(Scenario.host "0.60.4" None DisposeReturns, FolderAdded Scenario.folder);
             (Scenario.host "0.60.4" None DisposeReturns, FolderAdded Scenario.folder)])
    as Hroots by (by repeat constructor).
  assert (projectsCache
            (@run_operations SemverRef.semver
               [(Scenario.host "0.60.4" None DisposeReturns, FolderAdded Scenario.folder);
                (Scenario.host "0.60.4" None DisposeReturns, FolderAdded Scenario.folder)]
               initial_state).1 !! "/work/app"
          = Some (launcher_of (Scenario.host "0.60.4" None DisposeReturns) Scenario.folder))
    as Hlook by (vm_compute; reflexivity).
  split; [exact Hroots|]. split; [exact Hlook|].
  exact (proj1 (@one_launcher_per_folder SemverRef.semver _ (λ p, p) Hroots
                  _ _ _ _ Hlook Hlook eq_refl)).
Defined.

(** ** Activation, the commands and deactivation *)

Section ActivationFacts.

Import Activation.

Lemma isUpdatedVersion_eq currentVersion ext :
  isUpdatedVersion currentVersion ext
  = (Returned (version_changed currentVersion ext),
     {| module_state := module_state ext;
        config := if version_changed currentVersion ext
                  then <["version" := currentVersion]> (config ext)
                  else config ext;
        debugConfigProvider := debugConfigProvider ext;
        notices := notices ext |}).
Proof.
  unfold isUpdatedVersion, version_changed, xbind, get_extension.
  destruct (config ext !! "version") as [stored|] eqn:Hstored; simpl.
  - destruct (bool_decide (Some stored = Some currentVersion)); simpl;
      [by destruct ext | done].
  - done.
Qed.

(** X11: [isUpdatedVersion] answers [true] exactly when the stored version
    is missing or differs from the current one; afterwards the store holds
    the current version under "version" and every other key as before, so
    that asking again answers [false] and changes nothing. *)
Theorem isUpdatedVersion_records_version (currentVersion : string) (ext : Extension) :
  let result := isUpdatedVersion currentVersion ext in
  (result.1 = Returned true ↔ config ext !! "version" ≠ Some currentVersion)
  ∧ (result.1 = Returned false ↔ config ext !! "version" = Some currentVersion)
  ∧ config result.2 !! "version" = Some currentVersion
  ∧ (∀ key, key ≠ "version" → config result.2 !! key = config ext !! key)
  ∧ isUpdatedVersion currentVersion result.2 = (Returned false, result.2).
Proof.
  intros result. subst result. rewrite isUpdatedVersion_eq. simpl.
  unfold version_changed.
  destruct (decide (config ext !! "version" = Some currentVersion)) as [Hsame|Hdiff].
  - rewrite (bool_decide_eq_true_2 _ Hsame). simpl. split_and!; try done.
    rewrite isUpdatedVersion_eq. unfold version_changed. simpl.
    by rewrite (bool_decide_eq_true_2 _ Hsame).
  - rewrite (bool_decide_eq_false_2 _ Hdiff). simpl. split_and!; try done.
    + apply lookup_insert_eq.
    + intros key Hkey. by apply lookup_insert_ne.
    + rewrite isUpdatedVersion_eq. unfold version_changed. simpl.
      rewrite lookup_insert_eq.
      rewrite (bool_decide_eq_true_2 (Some currentVersion = Some currentVersion))
        by done.
      done.
Qed.

Lemma push_subscription_eq id ext :
  push_subscription id ext
  = (Returned tt,
     {| module_state :=
          {| projectsCache := projectsCache (module_state ext);
             COUNT_WORKSPACE_FOLDERS := COUNT_WORKSPACE_FOLDERS (module_state ext);
             subscriptions := subscriptions (module_state ext) ++ [pushed id];
             trace := trace (module_state ext) |};
        config := config ext;
        debugConfigProvider := debugConfigProvider ext;
        notices := notices ext |}).
Proof. reflexivity. Qed.

Lemma push_subscriptions_eq ids ext :
  xforEach ids push_subscription ext
  = (Returned tt,
     {| module_state :=
          {| projectsCache := projectsCache (module_state ext);
             COUNT_WORKSPACE_FOLDERS := COUNT_WORKSPACE_FOLDERS (module_state ext);
             subscriptions := subscriptions (module_state ext) ++ (pushed <$> ids);
             trace := trace (module_state ext) |};
        config := config ext;
        debugConfigProvider := debugConfigProvider ext;
        notices := notices ext |}).
Proof.
  revert ext. induction ids as [|id ids IH]; intros ext; simpl.
  - rewrite app_nil_r. by destruct ext as [[] ? ? ?].
  - unfold xbind. rewrite push_subscription_eq, IH. simpl.
    by rewrite <- app_assoc.
Qed.

Lemma registerReactNativeCommands_eq ext :
  registerReactNativeCommands ext
  = xforEach command_ids push_subscription ext.
Proof.
  unfold registerReactNativeCommands, command_ids.
  generalize registered_commands. intros l. revert ext.
  induction l as [|c l IH]; intros ext; [done|].
  simpl. unfold xbind, registerVSCodeCommand.
  destruct (push_subscription _ ext) as [[[]|e] ext']; [apply IH | done].
Qed.

(** X12: [registerReactNativeCommands] registers twenty commands under
    pairwise distinct identifiers, all in the [reactNative.] namespace, and
    pushes one subscription for each, in source order, after the
    subscriptions that are there; it touches nothing else. *)
Theorem registerReactNativeCommands_distinct (ext : Extension) :
  registerReactNativeCommands ext
  = (Returned tt,
     {| module_state :=
          {| projectsCache := projectsCache (module_state ext);
             COUNT_WORKSPACE_FOLDERS := COUNT_WORKSPACE_FOLDERS (module_state ext);
             subscriptions := subscriptions (module_state ext) ++ (pushed <$> command_ids);
             trace := trace (module_state ext) |};
        config := config ext;
        debugConfigProvider := debugConfigProvider ext;
        notices := notices ext |})
  ∧ length command_ids = 20
  ∧ NoDup command_ids
  ∧ Forall (λ id, String.prefix "reactNative." id = true) command_ids.
Proof.
  split; [by rewrite registerReactNativeCommands_eq, push_subscriptions_eq|].
  split; [reflexivity|]. split.
  - refine (bool_decide_unpack _ _). vm_compute. exact I.
  - refine (bool_decide_unpack _ _). vm_compute. exact I.
Qed.

(** X13: the handler of [selectAndInsertDebugConfiguration] throws the
    command-failed error exactly when the provider is [null] or fewer than
    three arguments are given; otherwise the indices 0, 1 and 2 lie inside
    the array and it passes on the three arguments found there, as they
    are, and ignores the others.  The guard looks at the number of
    arguments only: their values are of any type [Arg] and are not
    inspected. *)
Theorem selectAndInsertDebugConfiguration_guard {Arg : Type} (provider : bool)
    (commandArgs : list Arg) :
  (selectAndInsertDebugConfiguration_handler provider commandArgs = inl CommandFailed
   ↔ provider = false ∨ length commandArgs < 3)
  ∧ (∀ passed,
       selectAndInsertDebugConfiguration_handler provider commandArgs = inr passed →
       ∃ document position token rest,
         commandArgs = document :: position :: token :: rest
         ∧ passed = (Some document, Some position, Some token))
  ∧ (∀ (document position token : Arg) (rest : list Arg),
       selectAndInsertDebugConfiguration_handler true
         (document :: position :: token :: rest)
       = inr (Some document, Some position, Some token)).
Proof.
  unfold selectAndInsertDebugConfiguration_handler.
  split_and!; [| |done].
  - destruct provider; simpl; [|split; auto].
    destruct (Nat.ltb_spec (length commandArgs) 3) as [Hshort|Hlong];
      [split; auto|].
    split; [done | intros [|]; [done | lia]].
  - destruct provider; simpl; [|done].
    destruct (Nat.ltb_spec (length commandArgs) 3) as [Hshort|Hlong]; [done|].
    intros passed [= <-].
    destruct commandArgs as [|document [|position [|token rest]]];
      simpl in Hlong; try lia.
    by exists document, position, token, rest.
Qed.

(** X14: [deactivate] always drops the debug configuration provider and
    asks the packagers to stop; the element inspector is stopped only once
    the packagers have stopped, the logcat monitors are cleaned up and the
    promise of [deactivate] resolves only when both stops succeed (a failed
    stop leaves the promise pending); the folder bookkeeping and the stored
    configuration are not touched.  After [deactivate] the handler of
    [selectAndInsertDebugConfiguration] fails whatever its arguments. *)
Theorem deactivate_settles (editor : Editor) (ext : Extension) :
  let result := deactivate editor ext in
  (result.1 = Returned Resolves
   ↔ stopAllPackagers editor = true ∧ stopElementInspector editor = true)
  ∧ (result.1 = Returned NeverSettles
     ↔ ¬ (stopAllPackagers editor = true ∧ stopElementInspector editor = true))
  ∧ (∃ tail, notices result.2 = notices ext ++ StopAllPackagers :: tail
             ∧ (StopElementInspector ∈ tail ↔ stopAllPackagers editor = true)
             ∧ (LogCatCleanUp ∈ tail
                ↔ stopAllPackagers editor = true
                  ∧ stopElementInspector editor = true))
  ∧ debugConfigProvider result.2 = false
  ∧ module_state result.2 = module_state ext
  ∧ config result.2 = config ext
  ∧ (∀ (Arg : Type) (commandArgs : list Arg),
       selectAndInsertDebugConfiguration_handler
         (debugConfigProvider result.2) commandArgs = inl CommandFailed).
Proof.
  intros result. subst result.
  unfold deactivate, xbind, get_extension, set_debugConfigProvider, notice, xret.
  destruct (debugConfigProvider ext) eqn:Hprovider,
    (stopAllPackagers editor), (stopElementInspector editor); simpl;
    rewrite ?Hprovider;
    (split_and!;
     [ intuition congruence
     | intuition congruence
     | eexists; split;
       [ rewrite <- ?app_assoc; simpl; reflexivity
       | rewrite ?elem_of_cons, ?elem_of_nil; intuition congruence ]
     | done | done | done | done ]).
Qed.

End ActivationFacts.

Lemma onFolderAdded_returns `{Semver} host folder st :
  (onFolderAdded host folder st).1 = Returned tt.
Proof. onFolderAdded_cases host folder st; done. Qed.

Section PromiseAll.

Import Activation.

Context (handler : WorkspaceFolder → M unit).

Lemma Promise_all_cons folder rest st :
  Promise_all (folder :: rest) handler st
  = (let '(o, st1) := handler folder st in
     let '(later, st2) := Promise_all rest handler st1 in
     match later with
     | Returned later =>
         (Returned match o with
                   | Thrown reason => Some reason
                   | Returned _ => later
                   end, st2)
     | Thrown e => (Thrown e, st2)
     end).
Proof.
  cbn [Promise_all]. unfold bind, try_catch, ret.
  destruct (handler folder st) as [[[]|reason] st1]; simpl;
    destruct (Promise_all rest handler st1) as [[later|e] st2]; done.
Qed.

(** The awaited handlers never throw at the caller directly: what comes
    back is the first rejection, or none. *)
Lemma Promise_all_settles folders st :
  ∃ rejected, (Promise_all folders handler st).1 = Returned rejected.
Proof.
  revert st. induction folders as [|folder rest IH]; intros st.
  - by exists None.
  - rewrite Promise_all_cons.
    destruct (handler folder st) as [o st1].
    destruct (IH st1) as [later Hlater].
    destruct (Promise_all rest handler st1) as [o2 st2]. simpl in Hlater.
    subst o2. by eexists.
Qed.


Lemma Promise_all_forEach folders st :
  (∀ folder st, (handler folder st).1 = Returned tt) →
  Promise_all folders handler st
  = (Returned None, (forEach folders handler st).2).
Proof.
  intros Hret. revert st. induction folders as [|folder rest IH]; intros st;
    [done|].
  rewrite Promise_all_cons. cbn [forEach]. unfold bind.
  specialize (Hret folder st).
  destruct (handler folder st) as [o st1]. simpl in Hret. subst o.
  by rewrite IH.
Qed.


End PromiseAll.

Lemma onFolderAdded_subscriptions `{Semver} host folder st :
  subscriptions (onFolderAdded host folder st).2
  = subscriptions st
    ++ (if sets_up host folder then [pushed (folder_uri folder)] else []).
Proof.
  unfold sets_up.
  onFolderAdded_cases host folder st; simpl;
    rewrite ?app_nil_r; try done;
    by rewrite (bool_decide_eq_true_2 (None = None)).
Qed.

Lemma forEach_onFolderAdded_subscriptions `{Semver} host folders st :
  subscriptions (forEach folders (onFolderAdded host) st).2
  = subscriptions st
    ++ (pushed <$> (folder_uri <$> filter (λ folder, sets_up host folder = true) folders)).
Proof.
  revert st. induction folders as [|folder rest IH]; intros st.
  - simpl. by rewrite app_nil_r.
  - cbn [forEach]. unfold bind. rewrite filter_cons.
    pose proof (onFolderAdded_subscriptions host folder st) as Hone.
    pose proof (onFolderAdded_returns host folder st) as Hret.
    destruct (onFolderAdded host folder st) as [o st1]. simpl in Hone, Hret.
    subst o. rewrite IH, Hone.
    destruct (decide (sets_up host folder = true)) as [->|Hnot].
    + by rewrite <- app_assoc.
    + apply not_true_is_false in Hnot. rewrite Hnot. by rewrite app_nil_r.
Qed.

Arguments command_ids : simpl never.
Arguments Activation.activation_subscriptions : simpl never.

Section ActivateFacts.

Import Activation.

Context `{Semver} (editor : Editor) (host : Host).

Lemma activateRunApp_with_eq handler ext :
  ∃ rejected handled,
    Promise_all (default [] (workspaceFolders editor)) handler
      (started editor (module_state ext))
    = (Returned rejected, handled)
    ∧ activateRunApp_with editor handler ext
      = (match rejected with
         | Some reason => Thrown reason
         | None => Returned tt
         end,
         {| module_state :=
              {| projectsCache := projectsCache handled;
                 COUNT_WORKSPACE_FOLDERS := COUNT_WORKSPACE_FOLDERS handled;
                 subscriptions :=
                   subscriptions handled
                   ++ match rejected with
                      | Some _ => []
                      | None => pushed <$> command_ids
                      end;
                 trace := trace handled |};
            config := config ext;
            debugConfigProvider := debugConfigProvider ext;
            notices := notices ext ++ run_notices editor |}).
Proof.
  unfold activateRunApp_with, run_notices. unfold xbind at 1.
  rewrite push_subscriptions_eq. unfold xbind at 1. unfold notice at 1.
  unfold xbind at 1.
  destruct (workspaceFolders editor) as [folders|] eqn:Hw.
  - unfold started. rewrite Hw. change (default [] (Some folders)) with folders.
    unfold xbind at 1. unfold lift at 1.
    unfold outputChannelLogger_debug, emit.
    cbn [module_state config debugConfigProvider notices
         projectsCache COUNT_WORKSPACE_FOLDERS subscriptions trace].
    unfold lift.
    cbn [module_state config debugConfigProvider notices
         projectsCache COUNT_WORKSPACE_FOLDERS subscriptions trace].
    match goal with
    | |- context [Promise_all folders handler ?st0] =>
        destruct (Promise_all_settles handler folders st0) as [rejected Hsettled];
        destruct (Promise_all folders handler st0) as [o handled]
    end.
    simpl in Hsettled. subst o. exists rejected, handled.
    split; [done|]. destruct rejected as [reason|].
    + unfold xthrow. rewrite app_nil_r. by destruct handled.
    + by rewrite registerReactNativeCommands_eq, push_subscriptions_eq.
  - unfold started. rewrite Hw. change (default [] None) with (@nil WorkspaceFolder).
    exists None. eexists. split; [reflexivity|].
    unfold xbind at 1 2. unfold lift at 1, notice at 1, xret.
    unfold outputChannelLogger_warning, emit.
    cbn [module_state config debugConfigProvider notices
         projectsCache COUNT_WORKSPACE_FOLDERS subscriptions trace].
    rewrite registerReactNativeCommands_eq, push_subscriptions_eq.
    cbn [module_state config debugConfigProvider notices
         projectsCache COUNT_WORKSPACE_FOLDERS subscriptions trace].
    rewrite <- (app_assoc (notices ext)). reflexivity.
Qed.

(** With [onFolderAdded] no handler rejects: the managers of the folders
    that were set up stand between the registrations and the commands. *)
Lemma activateRunApp_result ext :
  ∃ st',
    activateRunApp editor host ext
    = (Returned tt,
       {| module_state := st';
          config := config ext;
          debugConfigProvider := debugConfigProvider ext;
          notices := notices ext ++ run_notices editor |})
    ∧ subscriptions st'
      = subscriptions (module_state ext) ++ (pushed <$> activation_subscriptions)
        ++ (pushed <$> (folder_uri <$>
              filter (λ folder, sets_up host folder = true)
                     (default [] (workspaceFolders editor))))
        ++ (pushed <$> command_ids).
Proof.
  unfold activateRunApp.
  destruct (activateRunApp_with_eq (onFolderAdded host) ext)
    as (rejected & handled & Hall & ->).
  rewrite Promise_all_forEach in Hall by apply onFolderAdded_returns.
  injection Hall as <- <-.
  eexists. split; [reflexivity|]. cbn [subscriptions].
  rewrite forEach_onFolderAdded_subscriptions. unfold started.
  cbn [subscriptions]. by rewrite <- !app_assoc.
Qed.

(** The part of [activate] after the notifications. *)
Lemma activate_goes_on context appVersion ext :
  ∃ st',
    (lift (outputChannelLogger_debug "Begin to activate...") ;;
     lift (outputChannelLogger_debug ("Extension version: " ++ appVersion)%string) ;;
     set_debugConfigProvider true ;;
     lift (set_subscriptions context) ;;
     runApp (activateRunApp editor host))%x ext
    = (Returned tt,
       {| module_state := st';
          config := config ext;
          debugConfigProvider := true;
          notices := notices ext ++ run_notices editor |}).
Proof.
  unfold xbind at 1 2 3 4. unfold lift at 1 2 3, set_debugConfigProvider. simpl.
  unfold runApp, xcatch.
  match goal with
  | |- context [activateRunApp editor host ?ext0] =>
      destruct (activateRunApp_result ext0) as (st' & -> & _)
  end.
  simpl. by exists st'.
Qed.

(** Unfolds the notifications at the start of [activate]. *)
Ltac activate_preamble :=
  unfold isUpdatedVersion, showTwoVersionFoundNotification,
    showChangelogNotificationOnUpdate;
  unfold xbind, get_extension, set_config, notice, xret.

(** X15: [activate] stops before anything is set up in two cases.  Without
    an extension version it throws and changes nothing.  When the preview
    extension finds the stable one installed it returns after the
    notification: nothing is subscribed, registered or logged and the debug
    configuration provider is as before, yet the current version has
    already been written to the stored configuration. *)
Theorem activate_stops_early (context : list Subscription) (ext : Extension) :
  (js_truthy (getExtensionVersion editor) = false →
   activate editor host context ext
   = (Thrown (Failure "Extension version is not found"), ext))
  ∧ (∀ appVersion,
       getExtensionVersion editor = Some appVersion → appVersion ≠ ""%string →
       stops_early editor = true →
       let result := activate editor host context ext in
       result.1 = Returned tt
       ∧ module_state result.2 = module_state ext
       ∧ debugConfigProvider result.2 = debugConfigProvider ext
       ∧ config result.2 !! "version"%string = Some appVersion
       ∧ notices result.2 = notices ext ++ [InformationMessage twoVersionsMessage]).
Proof.
  split.
  - intros Hversion. unfold activate. by rewrite Hversion.
  - intros appVersion Hversion Hne Hstops result. subst result.
    unfold activate. rewrite Hversion.
    assert (js_truthy (Some appVersion) = true) as ->.
    { simpl. apply negb_true_iff. by apply String.eqb_neq. }
    simpl negb. cbv iota. simpl default.
    unfold stops_early in Hstops.
    apply andb_true_iff in Hstops as [Hstops Hstable].
    apply andb_true_iff in Hstops as [Hname Hpreview].
    set (tail := (lift (outputChannelLogger_debug "Begin to activate...") ;; _)%x).
    activate_preamble. rewrite Hname, Hpreview, Hstable. simpl.
    destruct (bool_decide (config ext !! "version"%string = Some appVersion))
      eqn:Hstored; simpl.
    + destruct (bool_decide (is_Some (config ext !! "version"%string))); simpl;
        split_and!; try done; try apply lookup_insert_eq.
      by apply bool_decide_eq_true_1 in Hstored.
    + rewrite orb_true_r. simpl. split_and!; try done. apply lookup_insert_eq.
Qed.
(** An [activate] that neither throws nor returns early. *)
Lemma activate_result context appVersion ext :
  getExtensionVersion editor = Some appVersion → appVersion ≠ ""%string →
  stops_early editor = false →
  ∃ st',
    activate editor host context ext
    = (Returned tt,
       {| module_state := st';
          config := if js_truthy (getExtensionName editor)
                       && version_changed appVersion ext
                    then <["version"%string := appVersion]> (config ext)
                    else config ext;
          debugConfigProvider := true;
          notices := notices ext
                     ++ update_notices editor appVersion
                          (version_changed appVersion ext)
                     ++ run_notices editor |}).
Proof.
  intros Hversion Hne Hgoes.
  unfold activate. rewrite Hversion.
  assert (js_truthy (Some appVersion) = true) as ->.
  { simpl. apply negb_true_iff. by apply String.eqb_neq. }
  change (negb true) with false. cbv iota.
  change (default ""%string (Some appVersion)) with appVersion.
  unfold stops_early in Hgoes. unfold update_notices, changelog_notices.
  set (tail := (lift (outputChannelLogger_debug "Begin to activate...") ;; _)%x).
  unfold xbind at 1.
  destruct (js_truthy (getExtensionName editor)) eqn:Hname.
  - unfold xbind at 1. rewrite isUpdatedVersion_eq.
    destruct (version_changed appVersion ext) eqn:Hchanged;
      destruct (includes "preview" (default ""%string (getExtensionName editor)))
        eqn:Hpreview;
      simpl in Hgoes; activate_preamble; try rewrite Hgoes;
      try (destruct (findChangelog editor) as [file|];
           try (destruct (String.eqb file "") eqn:Hfile));
      cbn -[tail];
      match goal with
      | |- ∃ _, tail ?ext0 = _ =>
          destruct (activate_goes_on context appVersion ext0) as (st' & Heq)
      end;
      exists st'; subst tail; rewrite Heq; cbn; rewrite <- ?app_assoc;
      reflexivity.
  - cbn -[tail].
    destruct (activate_goes_on context appVersion ext) as (st' & Heq).
    exists st'. subst tail. rewrite Heq. reflexivity.
Qed.


(** X17: what an [activate] that goes on shows and records.  The tips are
    shown exactly when the extension has a name, and their configuration is
    updated exactly when, in addition, the stored version is missing or
    differs from the current one; the message about the update, on whose
    answer or dismissal the preview of the changelog opens, is shown
    exactly when the named extension is not a preview, the version has
    changed and the changelog file is found; and the current version ends
    up in the stored configuration exactly when the extension has a name or
    the version was stored already. *)
Theorem activate_notifications (context : list Subscription) (ext : Extension)
    (appVersion : string) :
  getExtensionVersion editor = Some appVersion → appVersion ≠ ""%string →
  stops_early editor = false →
  let result := activate editor host context ext in
  let named := js_truthy (getExtensionName editor) = true in
  let changed := config ext !! "version"%string ≠ Some appVersion in
  ∃ shown,
    notices result.2 = notices ext ++ shown
    ∧ (ShowTipNotification ∈ shown ↔ named)
    ∧ (UpdateTipsConfig ∈ shown ↔ named ∧ changed)
    ∧ (∀ msg file,
         InformationMessageThenPreview msg file ∈ shown
         ↔ named ∧ changed
           ∧ includes "preview" (default ""%string (getExtensionName editor)) = false
           ∧ findChangelog editor = Some file ∧ file ≠ ""%string
           ∧ msg = ("React Native Tools have been updated to " ++ appVersion)%string)
    ∧ (∀ msg, InformationMessage msg ∉ shown)
    ∧ (config result.2 !! "version"%string = Some appVersion
       ↔ named ∨ ¬ changed).
Proof.
  intros Hv Hne Hgoes result named changed. subst result named changed.
  destruct (activate_result context appVersion ext Hv Hne Hgoes) as (st' & ->).
  simpl. eexists. split; [reflexivity|].
  unfold update_notices, changelog_notices, run_notices, version_changed.
  destruct (decide (config ext !! "version"%string = Some appVersion))
    as [Hsame|Hdiff].
  - rewrite (bool_decide_eq_true_2 _ Hsame). simpl.
    destruct (js_truthy (getExtensionName editor)),
      (includes "preview" (default ""%string (getExtensionName editor))),
      (workspaceFolders editor); simpl;
      repeat setoid_rewrite elem_of_cons; repeat setoid_rewrite elem_of_nil;
      intuition congruence.
  - rewrite (bool_decide_eq_false_2 _ Hdiff). simpl.
    destruct (js_truthy (getExtensionName editor)),
      (includes "preview" (default ""%string (getExtensionName editor))),
      (workspaceFolders editor), (findChangelog editor) as [found|]; simpl;
      try destruct (String.eqb_spec found "");
      simpl; rewrite ?lookup_insert_eq;
      repeat setoid_rewrite elem_of_cons; repeat setoid_rewrite elem_of_nil;
      intuition congruence.
Qed.

End ActivateFacts.

Lemma activate_notifications_witness :
  let editor := Workbench.editor (Some "msjsdiag.vscode-react-native"%string) None in
  Activation.getExtensionVersion editor = Some "1.4.0"%string
  ∧ stops_early editor = false
  ∧ Activation.InformationMessageThenPreview
      "React Native Tools have been updated to 1.4.0" "/extension/CHANGELOG.md"
    ∈ Activation.notices
        (@Activation.activate SemverRef.semver editor
           (Scenario.host "0.60.4" None DisposeReturns) [] Workbench.fresh).2.
Proof.
  split; [reflexivity|]. split; [vm_compute; reflexivity|].
  destruct (@activate_notifications SemverRef.semver
              (Workbench.editor (Some "msjsdiag.vscode-react-native"%string) None)
              (Scenario.host "0.60.4" None DisposeReturns) [] Workbench.fresh
              "1.4.0"%string)
    as (shown & Hshown & _ & _ & Hpreview & _);
    [reflexivity | done | vm_compute; reflexivity |].
  rewrite Hshown. apply elem_of_app. right. apply Hpreview.
  split_and!; [reflexivity | by vm_compute | vm_compute; reflexivity
               | reflexivity | done | reflexivity].
Defined.

(** Two folders in the workspace, the setup of the second one rejects: its
    manager is not subscribed, and the commands follow the manager of the
    first. *)
Example activateRunApp_two_folders :
  let host :=
    {| getReactNativeProjectRoot := λ rootPath, rootPath;
       tryToGetRNSemverValidVersionsFromProjectPackage :=
         λ _, Scenario.versions "0.60.4";
       isVersionError := String.prefix "error";
       existsSync := λ _, true;
       basename := λ p, p;
       setup := λ rootPath,
         if String.eqb rootPath "/work/broken" then Some (Failure "EACCES")
         else None;
       dispose := λ _, DisposeReturns |} in
  let broken :=
    {| folder_uri := "/work/broken"; folder_name := "broken"; folder_index := 1 |} in
  let editor := Workbench.editor None (Some [Scenario.folder; broken]) in
  let result := @Activation.activateRunApp SemverRef.semver editor host Workbench.fresh in
  result.1 = Returned tt
  ∧ subscriptions (Activation.module_state result.2)
    = (pushed <$> Activation.activation_subscriptions)
      ++ [pushed "/work/app"] ++ (pushed <$> command_ids).
Proof. vm_compute. split; reflexivity. Qed.

(** A handler that rejects for the first folder: the second folder is
    handled all the same, the rejection is thrown and no command is
    registered. *)
Example activateRunApp_rejection :
  let host := Scenario.host "0.60.4" None DisposeReturns in
  let broken :=
    {| folder_uri := "/work/broken"; folder_name := "broken"; folder_index := 0 |} in
  let handler := λ folder : WorkspaceFolder,
    if String.eqb (folder_uri folder) "/work/broken"
    then throw (Failure "package.json cannot be read")
    else @onFolderAdded SemverRef.semver host folder in
  let editor := Workbench.editor None (Some [broken; Scenario.folder]) in
  let result := Activation.activateRunApp_with editor handler Workbench.fresh in
  result.1 = Thrown (Failure "package.json cannot be read")
  ∧ subscriptions (Activation.module_state result.2)
    = (pushed <$> Activation.activation_subscriptions) ++ [pushed "/work/app"]
  ∧ is_Some (projectsCache (Activation.module_state result.2) !! "/work/app").
Proof. vm_compute. split_and!; [reflexivity | reflexivity | by eexists]. Qed.
